(** * CustomerRFM: the RFM pipeline of [RFMAnalysis.py]

    A shallow embedding of class [RFM] (aggregation per customer, dynamic
    quantile binning, segment and score, status and description) together
    with the part of pandas it calls, and the properties of the
    specification proved or refuted on it.

    Numbers.  Timestamps are integers (nanoseconds, as in a datetime64[ns]
    column), amounts are integers (minor currency units) and scores are
    integers.  Quantile boundaries of an integer column at the fractions
    0, 1/4, 1/2, 3/4, 1 are multiples of 1/4: they are kept exactly, as
    numerators over the fixed denominator 4 (type [quarters]).  The mean is
    an exact rational; the standard deviation is a parameter of the
    classifier.  Tables have no missing values: every record carries its
    four fields, as the data model requires.

    The amounts column is int64 or float64.  An int64 sum wraps around.  A
    float64 column is given by the integers that count its amounts in a
    power-of-two unit fine enough for all of them (every float64 is such a
    multiple), and the results are in that unit.  pandas computes the
    quantile boundaries in float64 and answers NaN on an empty column: the
    boundaries of the model are those of pandas on the columns that are not
    empty and whose values are at most [exact_bound] in absolute value
    ([exact_column]), and the statements that depend on it say so. *)

From Stdlib Require Import String Ascii DecimalString.
From Stdlib Require Import ZArith QArith List Bool Lia Lqa.
From Stdlib Require Import Permutation Sorting.Sorted Sorting.Mergesort.
Import ListNotations.

Open Scope Z_scope.

(** ** Exceptions *)

Inductive exception : Type :=
| ValueError (msg : string).

Inductive result (A : Type) : Type :=
| Ok (a : A)
| Raise (e : exception).

Arguments Ok {A} a.
Arguments Raise {A} e.

Definition bind {A B : Type} (m : result A) (k : A -> result B) : result B :=
  match m with
  | Ok a => k a
  | Raise e => Raise e
  end.

Notation "x <- m ;; k" := (bind m (fun x => k))
  (at level 61, m at next level, right associativity).

Definition raises {A : Type} (m : result A) : Prop :=
  exists e, m = Raise e.

(** ** Python lists *)

Module py.

(** [l[start:]] for a list [l] and an integer [start]: a negative [start]
    counts from the end, and both ends are clamped.  [-0] is [0]. *)
Definition slice_from {A : Type} (start : Z) (l : list A) : list A :=
  let len := Z.of_nat (length l) in
  let i := if start <? 0 then Z.max (len + start) 0 else Z.min start len in
  skipn (Z.to_nat i) l.

(** [str] of an integer, as an f-string renders it. *)
Definition str (z : Z) : string := NilZero.string_of_int (Z.to_int z).

End py.

(** ** The part of pandas the class uses *)

Module ZOrder <: Orders.TotalLeBool.
Definition t := Z.
Definition leb := Z.leb.
Lemma leb_total : forall a b, leb a b = true \/ leb b a = true.
Proof. intros a b; unfold leb; rewrite !Z.leb_le; lia. Qed.
End ZOrder.

Module ZSort := Sort ZOrder.

(** A boundary [b] is stored as the integer [4 * b]. *)
Abbreviation quarters := Z (only parsing).
Definition to_quarters (v : Z) : quarters := 4 * v.

(** The two dtypes an amounts column can have. *)
Inductive dtype : Type :=
| int64
| float64.

(** Two's complement on 64 bits: what an int64 result keeps of the exact
    one. *)
Definition wrap64 (z : Z) : Z := (z + 2 ^ 63) mod 2 ^ 64 - 2 ^ 63.

Module pd.

(** [Series.max] of a column without missing values.  On an empty column
    pandas answers NaT/NaN; the model answers [0] there, a value no
    customer row ever reads (an empty table has no group). *)
Definition max (column : list Z) : Z :=
  match column with
  | [] => 0
  | x :: xs => fold_left Z.max xs x
  end.

(** The exact sum of a column, as [Series.mean] accumulates it, and
    [Series.count], of a column without missing values. *)
Definition sum (column : list Z) : Z := fold_left Z.add column 0.
Definition count {A : Type} (column : list A) : Z := Z.of_nat (length column).

(** The sum of a group of a column of the given dtype: an int64 sum wraps
    around; a float64 sum is the exact one as long as no partial sum is
    rounded. *)
Definition sum_of (dt : dtype) (column : list Z) : Z :=
  match dt with
  | int64 => wrap64 (sum column)
  | float64 => sum column
  end.

(** [Series.mean]: the exact quotient. *)
Definition mean (column : list Z) : Q :=
  (inject_Z (sum column) / inject_Z (count column))%Q.

(** [algos.unique]: the distinct values in order of first appearance. *)
Fixpoint unique (l : list Z) : list Z :=
  match l with
  | [] => []
  | x :: xs => x :: filter (fun y => negb (y =? x)) (unique xs)
  end.

(** The quantile of a sorted column at the fraction [k / 4], with linear
    interpolation between the two neighbours of the virtual index
    [(len - 1) * k / 4]; the result is in quarters. *)
Definition quantile (sorted : list Z) (k : nat) : quarters :=
  let h := (Z.of_nat (length sorted) - 1) * Z.of_nat k in
  let i := Z.to_nat (h / 4) in
  let gamma := h mod 4 in
  let lo := nth i sorted 0 in
  let hi := nth (Nat.min (S i) (length sorted - 1)) sorted 0 in
  4 * lo + gamma * (hi - lo).

(** [np.linspace(0, 1, q + 1)] for [q = 4], as numerators over 4. *)
Definition linspace4 : list nat := [0; 1; 2; 3; 4]%nat.

(** [bins.searchsorted(v, side="left")] on increasing [bins]: the number
    of edges strictly below [v]. *)
Fixpoint searchsorted_left (bins : list quarters) (v : quarters) : nat :=
  match bins with
  | [] => 0
  | b :: bs => if b <? v then S (searchsorted_left bs v) else 0
  end.

Fixpoint is_monotonic_increasing (bins : list quarters) : bool :=
  match bins with
  | [] => true
  | b :: bs =>
      match bs with
      | [] => true
      | b' :: _ => (b <=? b') && is_monotonic_increasing bs
      end
  end.

(** [_bins_to_cuts] with [duplicates="drop"]: repeated edges are dropped
    unless there are exactly two edges. *)
Definition drop_duplicate_edges (bins : list quarters) : list quarters :=
  let unique_bins := unique bins in
  if (length unique_bins <? length bins)%nat && negb (length bins =? 2)%nat
  then unique_bins else bins.

(** [_bins_to_cuts] with [right=True]: the bin number of each value, from
    1; 0 stands for the values outside every bin (the NaN mask). *)
Definition bin_id (bins : list quarters) (include_lowest : bool) (v : Z) : nat :=
  let id := searchsorted_left bins (to_quarters v) in
  let id := if include_lowest && (to_quarters v =? nth 0 bins 0)
            then 1%nat else id in
  if (id =? length bins)%nat || (id =? 0)%nat then 0%nat else id.

Definition bin_ids (x : list Z) (bins : list quarters) (include_lowest : bool)
  : list nat :=
  map (bin_id bins include_lowest) x.

(** [algos.take_nd(labels, ids - 1)]: index [-1] gives NaN ([None]). *)
Definition take_nd {A : Type} (labels : list A) (ids : list nat)
  : list (option A) :=
  map (fun id => match id with
                 | O => None
                 | S j => nth_error labels j
                 end) ids.

(** [_format_labels]: one interval per pair of neighbouring edges. *)
Definition _format_labels (bins : list quarters) : list (quarters * quarters) :=
  combine bins (tl bins).

(** [pd.qcut(x, q=4, retbins=True, duplicates="drop")]: the interval of
    each value and the edges that survive.  (On an empty column the
    boundaries of pandas are NaN, which [pd.cut] refuses as not monotonic,
    and on values beyond 2^53 they are rounded: the model covers the columns
    of [exact_column].) *)
Definition qcut (x : list Z)
  : list (option (quarters * quarters)) * list quarters :=
  let bins := map (quantile (ZSort.sort x)) linspace4 in
  let bins := drop_duplicate_edges bins in
  let ids := bin_ids x bins true in
  (take_nd (_format_labels bins) ids, bins).

(** [pd.cut(x, bins=bins, labels=labels, duplicates="drop",
    include_lowest=...)] for a sequence of edges and a list of labels. *)
Definition cut (x : list Z) (bins : list quarters) (labels : list Z)
           (include_lowest : bool) : result (list (option Z)) :=
  if negb (is_monotonic_increasing bins)
  then Raise (ValueError "bins must increase monotonically.")
  else
    let bins := drop_duplicate_edges bins in
    let ids := bin_ids x bins include_lowest in
    if negb (length (unique labels) =? length labels)%nat
    then Raise (ValueError "labels must be unique if ordered=True; pass ordered=False for duplicate labels")
    else if negb (S (length labels) =? length bins)%nat
    then Raise (ValueError "Bin labels must be one fewer than the number of bin edges")
    else Ok (take_nd labels ids).

End pd.

(** ** The transaction table and the class [RFM] *)

(** One row of the input frame: columns [id], [IslemID], [IslemTarih]
    (nanoseconds) and [IslemTutar] (minor units). *)
Record Transaction : Type := mkTransaction {
  id : Z;
  IslemID : Z;
  IslemTarih : Z;
  IslemTutar : Z
}.

Definition DataFrame := list Transaction.

(** One row of [rfm] after the aggregation; the index is the customer. *)
Record Metrics : Type := mkMetrics {
  index : Z;
  Recency : Z;
  Frequency : Z;
  Monetary : Z
}.

(** One row of [rfm] after [_calculate_rfm]: [None] is NaN. *)
Record RFMRow : Type := mkRFMRow {
  metrics : Metrics;
  R : option Z;
  F : option Z;
  M : option Z;
  RFM_Segment : string;
  RFM_Score : Z
}.

(** One row of [rfm] after [calculate_customer_value]. *)
Record ValuedRow : Type := mkValuedRow {
  base : RFMRow;
  Status : string;
  Description : string
}.

(** [Timedelta.days] of a difference in nanoseconds: the floor. *)
Definition ns_per_day : Z := 86400 * 1000000000.
Definition days (delta : Z) : Z := delta / ns_per_day.

(** [df.groupby('id')]: the groups in increasing order of their key, each
    with the rows of that key in table order. *)
Definition group_keys (df : DataFrame) : list Z :=
  ZSort.sort (pd.unique (map id df)).

Definition group_rows (df : DataFrame) (key : Z) : DataFrame :=
  filter (fun row => id row =? key) df.

Definition groupby (df : DataFrame) : list (Z * DataFrame) :=
  map (fun key => (key, group_rows df key)) (group_keys df).

(** The three aggregations of [_calculate_rfm], renamed, on a table whose
    amounts column is int64 (see [Typed] below for either dtype). *)
Definition agg (latest_date : Z) (group : Z * DataFrame) : Metrics :=
  let '(key, rows) := group in
  mkMetrics key
    (days (latest_date - pd.max (map IslemTarih rows)))
    (pd.count (map IslemID rows))
    (pd.sum_of int64 (map IslemTutar rows)).

Definition aggregate (df : DataFrame) (latest_date : Z) : list Metrics :=
  map (agg latest_date) (groupby df).

(** [_dynamic_qcut]. *)
Definition _dynamic_qcut (column : list Z) (labels : list Z)
  : result (list (option Z)) :=
  let '(_, bins) := pd.qcut column in
  let n := Z.of_nat (length bins) - 1 in
  pd.cut column bins (py.slice_from (- n) labels) true.

(** A category label inside an f-string, in a row of integers (int64
    amounts; see [Typed.format_label] for either dtype). *)
Definition format_label (l : option Z) : string :=
  match l with
  | Some z => py.str z
  | None => "nan"
  end.

(** [DataFrame.sum(axis=1)] on one row: NaN is skipped. *)
Definition label_value (l : option Z) : Z :=
  match l with
  | Some z => z
  | None => 0
  end.

Definition row_sum (row : list (option Z)) : Z :=
  fold_left (fun acc l => acc + label_value l) row 0.

Definition segment_of (r f m : option Z) : string :=
  (format_label r ++ format_label f ++ format_label m)%string.

Definition score_of (r f m : option Z) : Z :=
  row_sum [r; f; m].

(** Column assignment: the new columns are aligned with the rows by
    position (they share the index of [rfm]). *)
Fixpoint assign_scores (rows : list Metrics) (rs fs ms : list (option Z))
  : list RFMRow :=
  match rows, rs, fs, ms with
  | row :: rows', r :: rs', f :: fs', m :: ms' =>
      mkRFMRow row r f m (segment_of r f m) (score_of r f m)
      :: assign_scores rows' rs' fs' ms'
  | _, _, _, _ => []
  end.

Definition _calculate_rfm (df : DataFrame) (latest_date : Z)
  : result (list RFMRow) :=
  let rfm := aggregate df latest_date in
  rs <- _dynamic_qcut (map Recency rfm) [4; 3; 2; 1] ;;
  fs <- _dynamic_qcut (map Frequency rfm) [1; 2; 3; 4] ;;
  ms <- _dynamic_qcut (map Monetary rfm) [1; 2; 3; 4] ;;
  Ok (assign_scores rfm rs fs ms).

(** The object after [__init__]. *)
Record RFM : Type := mkRFM {
  df : DataFrame;
  latest_date : Z;
  rfm : list RFMRow
}.

Definition __init__ (table : DataFrame) : result RFM :=
  let latest := pd.max (map IslemTarih table) in
  rows <- _calculate_rfm table latest ;;
  Ok (mkRFM table latest rows).

(** ** The same code for either dtype of the amounts *)

(** The definitions above are the code on a table whose amounts column is
    int64; those of [Typed] take the dtype of that column, and are the ones
    above at [int64] (lemma [typed_init_int64]). *)
Module Typed.

(** The aggregation: only the sum of the amounts depends on their dtype. *)
Definition agg (dt : dtype) (latest_date : Z) (group : Z * DataFrame) : Metrics :=
  let '(key, rows) := group in
  mkMetrics key
    (days (latest_date - pd.max (map IslemTarih rows)))
    (pd.count (map IslemID rows))
    (pd.sum_of dt (map IslemTutar rows)).

Definition aggregate (dt : dtype) (df : DataFrame) (latest_date : Z)
  : list Metrics :=
  map (agg dt latest_date) (groupby df).

(** The row that [apply(axis=1)] hands to the f-string holds Recency,
    Frequency, Monetary and the three labels in one dtype: int64 when
    Monetary is int64, float64 when it is float64; a float64 label [4] is
    rendered ["4.0"]. *)
Definition format_label (dt : dtype) (l : option Z) : string :=
  match l with
  | Some z =>
      match dt with
      | int64 => py.str z
      | float64 => (py.str z ++ ".0")%string
      end
  | None => "nan"
  end.

Definition segment_of (dt : dtype) (r f m : option Z) : string :=
  (format_label dt r ++ format_label dt f ++ format_label dt m)%string.

Fixpoint assign_scores (dt : dtype) (rows : list Metrics)
         (rs fs ms : list (option Z)) : list RFMRow :=
  match rows, rs, fs, ms with
  | row :: rows', r :: rs', f :: fs', m :: ms' =>
      mkRFMRow row r f m (segment_of dt r f m) (score_of r f m)
      :: assign_scores dt rows' rs' fs' ms'
  | _, _, _, _ => []
  end.

Definition _calculate_rfm (dt : dtype) (df : DataFrame) (latest_date : Z)
  : result (list RFMRow) :=
  let rfm := aggregate dt df latest_date in
  rs <- _dynamic_qcut (map Recency rfm) [4; 3; 2; 1] ;;
  fs <- _dynamic_qcut (map Frequency rfm) [1; 2; 3; 4] ;;
  ms <- _dynamic_qcut (map Monetary rfm) [1; 2; 3; 4] ;;
  Ok (assign_scores dt rfm rs fs ms).

Definition __init__ (dt : dtype) (table : DataFrame) : result RFM :=
  let latest := pd.max (map IslemTarih table) in
  rows <- _calculate_rfm dt table latest ;;
  Ok (mkRFM table latest rows).

End Typed.

(** ** The classifier *)

Definition Qge_bool (a b : Q) : bool := Qle_bool b a.
Definition Qgt_bool (a b : Q) : bool := negb (Qle_bool a b).

Definition _get_rfm_status (score avg_score std_score : Q) : string :=
  if Qge_bool score (avg_score + std_score) then "Platinum"
  else if Qgt_bool (avg_score + std_score) score && Qge_bool score avg_score
  then "Altın"
  else if Qgt_bool avg_score score && Qge_bool score (avg_score - std_score)
  then "Gümüş"
  else "Bronz".

(** [dict.get(key, default)] on a literal dictionary. *)
Fixpoint dict_get (d : list (string * string)) (key default : string) : string :=
  match d with
  | [] => default
  | (k, v) :: d' => if String.eqb k key then v else dict_get d' key default
  end.

Definition descriptions : list (string * string) :=
  [ ("Platinum", "Yüksek değerli müşteri. Ortalamanın çok üzerinde sıklık ve para değeri.");
    ("Altın", "Orta değerli müşteri. Ortalamanın üzerinde sıklık ve para değeri.");
    ("Gümüş", "Düşük-orta değerli müşteri. Ortalamanın altında sıklık ve para değeri, ancak en düşük değil.");
    ("Bronz", "Düşük değerli müşteri. Ortalamanın çok altında sıklık ve para değeri.") ]%string.

Definition _get_rfm_description (status : string) : string :=
  dict_get descriptions status "Tanımsız".

Section Classifier.

(** [Series.std] of the scores (the sample deviation, a square root), taken
    as a parameter. *)
Variable std : list Z -> Q.

Definition calculate_customer_value (self : RFM) : list ValuedRow :=
  let scores := map RFM_Score (rfm self) in
  let avg_score := pd.mean scores in
  let std_score := std scores in
  map (fun row =>
         let status := _get_rfm_status (inject_Z (RFM_Score row)) avg_score std_score in
         mkValuedRow row status (_get_rfm_description status))
      (rfm self).

(** The script: build the object, then value the customers. *)
Definition main (table : DataFrame) : result (list ValuedRow) :=
  self <- __init__ table ;;
  Ok (calculate_customer_value self).

End Classifier.

(** ** Vocabulary of the specification *)

(** The cut points that survive the collapse of duplicates, and the number
    of usable bins they leave ([n] in [_dynamic_qcut]). *)
Definition edges (column : list Z) : list quarters := snd (pd.qcut column).

Definition usable_bins (column : list Z) : Z :=
  Z.of_nat (length (edges column)) - 1.

(** The last [n] elements of a list. *)
Definition lastn {A : Type} (n : nat) (l : list A) : list A :=
  rev (firstn n (rev l)).

(** [m] is the greatest element of [l]. *)
Definition is_maximum (m : Z) (l : list Z) : Prop :=
  In m l /\ Forall (fun x => x <= m) l.

(** The sum of a list of integers. *)
Definition total (l : list Z) : Z := fold_right Z.add 0 l.

(** The digit a character stands for, and the sum of the digits of a
    string. *)
Definition digit_value (c : ascii) : Z := Z.of_nat (nat_of_ascii c) - 48.

Fixpoint digit_sum (s : string) : Z :=
  match s with
  | EmptyString => 0
  | String c s' => digit_value c + digit_sum s'
  end.

(** ** Example data *)

(** Five customers: customer [k] has [k] transactions of 10 units each, the
    latest one [k - 1] days before the latest date of the table. *)
Definition day (d : Z) : Z := d * ns_per_day.

Definition sample_table : DataFrame :=
  [ mkTransaction 1 101 (day 10) 10;
    mkTransaction 2 102 (day 9) 10;
    mkTransaction 2 103 (day 5) 10;
    mkTransaction 3 104 (day 8) 10;
    mkTransaction 3 105 (day 7) 10;
    mkTransaction 3 106 (day 1) 10;
    mkTransaction 4 107 (day 7 - 3600) 10;
    mkTransaction 4 108 (day 6) 10;
    mkTransaction 4 109 (day 6) 10;
    mkTransaction 4 110 (day 2) 10;
    mkTransaction 5 111 (day 6 - 1) 10;
    mkTransaction 5 112 (day 5) 10;
    mkTransaction 5 113 (day 4) 10;
    mkTransaction 5 114 (day 3) 10;
    mkTransaction 5 115 (day 2) 10 ].

(** Columns with ties: all values tied; three usable bins. *)
Definition tied_column : list Z := [7; 7; 7].
Definition collapsed_column : list Z := [1; 1; 1; 2; 3; 3; 9].

(** A column whose values are its own quartile boundaries. *)
Definition boundary_column : list Z := [1; 2; 3; 4; 5].

(** A stand-in for [Series.std]: the sample standard deviation (one degree
    of freedom removed) rounded down to three decimals. *)
Definition sample_std (scores : list Z) : Q :=
  let n := Z.of_nat (length scores) in
  let s1 := total scores in
  let s2 := total (map (fun x => x * x) scores) in
  let num := n * s2 - s1 * s1 in
  let den := n * (n - 1) in
  Z.sqrt (1000000 * num / den) # 1000.

(** The object built from [sample_table]. *)
Definition sample_object : RFM :=
  match __init__ sample_table with
  | Ok self => self
  | Raise _ => mkRFM [] 0 []
  end.

(** ** The range in which the model is exact *)

(** Values up to this bound, their quarters and their thousandths are
    float64 numbers. *)
Definition exact_bound : Z := 2 ^ 40.

(** A column on which the boundaries of the model are those of pandas: not
    empty, of at most [exact_bound] values, each at most [exact_bound] in
    absolute value. *)
Definition exact_column (column : list Z) : Prop :=
  column <> [] /\
  Z.of_nat (length column) <= exact_bound /\
  Forall (fun v => Z.abs v <= exact_bound) column.

(** A table whose three aggregated columns are such columns: timestamps far
    from the ends of the int64 range, and amounts whose absolute values add
    up to at most [exact_bound]. *)
Definition exact_table (table : DataFrame) : Prop :=
  table <> [] /\
  Z.of_nat (length table) <= exact_bound /\
  Forall (fun t => Z.abs (IslemTarih t) <= 2 ^ 61) table /\
  total (map (fun t => Z.abs (IslemTutar t)) table) <= exact_bound.

(** A table with a float64 amounts column, counted in quarters: customer 1
    has one transaction of 10.5, customer 2 two transactions of 20.25 and
    5.0. *)
Definition fractional_table : DataFrame :=
  [ mkTransaction 1 301 (day 10) 42;
    mkTransaction 2 302 (day 9) 81;
    mkTransaction 2 303 (day 5) 20 ].

(** ** Further vocabulary *)

(** A column with two different values, and a column whose values are all
    the same. *)
Definition varied (column : list Z) : Prop :=
  exists v w, In v column /\ In w column /\ v <> w.

Definition tied (column : list Z) : Prop :=
  forall v w, In v column -> In w column -> v = w.

(** The labels a segment code spells, digit by digit. *)
Definition decode_segment (s : string) : list Z :=
  map digit_value (list_ascii_of_string s).

(** The tiers from the lowest to the highest. *)
Definition tier_rank (status : string) : Z :=
  if String.eqb status "Platinum" then 3
  else if String.eqb status "Altın" then 2
  else if String.eqb status "Gümüş" then 1
  else 0.

(** The message of the only error the construction can end with. *)
Definition label_count_error : exception :=
  ValueError "Bin labels must be one fewer than the number of bin edges".

(** A table in which every customer has one transaction. *)
Definition single_purchase_table : DataFrame :=
  [ mkTransaction 1 201 (day 3) 10;
    mkTransaction 2 202 (day 2) 25;
    mkTransaction 3 203 (day 1) 40 ].

(** * Properties *)

(** ** Sorting and the distinct values of a list *)

Lemma sort_sorted (l : list Z) : StronglySorted Z.le (ZSort.sort l).
Proof.
  assert (H : StronglySorted (fun a b => is_true (ZOrder.leb a b)) (ZSort.sort l)).
  { apply ZSort.StronglySorted_sort.
    intros a b c; unfold ZOrder.leb, is_true; rewrite !Z.leb_le; lia. }
  induction H as [|a s Hs IH Ha]; constructor; auto.
  eapply Forall_impl; [|exact Ha].
  intros b; unfold ZOrder.leb, is_true; rewrite Z.leb_le; auto.
Qed.

Lemma sort_perm (l : list Z) : Permutation l (ZSort.sort l).
Proof. apply ZSort.Permuted_sort. Qed.

Lemma sort_length (l : list Z) : length (ZSort.sort l) = length l.
Proof. symmetry; apply Permutation_length, sort_perm. Qed.

Lemma sort_in (l : list Z) (x : Z) : In x (ZSort.sort l) <-> In x l.
Proof.
  split; intro H.
  - eapply Permutation_in; [apply Permutation_sym, sort_perm | exact H].
  - eapply Permutation_in; [apply sort_perm | exact H].
Qed.

Lemma sorted_nth_le (s : list Z) :
  StronglySorted Z.le s ->
  forall i j, (i <= j < length s)%nat -> nth i s 0 <= nth j s 0.
Proof.
  induction 1 as [|a s Hs IH Ha]; intros i j Hij; simpl in *; [lia|].
  destruct i as [|i], j as [|j]; try lia.
  - rewrite Forall_forall in Ha. apply Ha, nth_In. lia.
  - apply IH. lia.
Qed.

Lemma filter_length_eq {A : Type} (p : A -> bool) (l : list A) :
  length (filter p l) = length l -> filter p l = l.
Proof.
  induction l as [|x xs IH]; simpl; auto.
  pose proof (filter_length_le p xs) as Hle.
  destruct (p x); simpl; intro H.
  - f_equal. apply IH. lia.
  - lia.
Qed.

Lemma unique_in (l : list Z) (x : Z) : In x (pd.unique l) <-> In x l.
Proof.
  induction l as [|a l IH]; simpl; [tauto|].
  rewrite filter_In, IH, negb_true_iff, Z.eqb_neq.
  destruct (Z.eq_dec a x); intuition.
Qed.

Lemma unique_NoDup (l : list Z) : NoDup (pd.unique l).
Proof.
  induction l as [|a l IH]; simpl; constructor.
  - rewrite filter_In, negb_true_iff, Z.eqb_neq. tauto.
  - apply NoDup_filter, IH.
Qed.

Lemma unique_length_le (l : list Z) : (length (pd.unique l) <= length l)%nat.
Proof.
  induction l as [|a l IH]; simpl; auto.
  pose proof (filter_length_le (fun y => negb (y =? a)) (pd.unique l)). lia.
Qed.

Lemma unique_length_eq (l : list Z) :
  length (pd.unique l) = length l -> pd.unique l = l.
Proof.
  induction l as [|a l IH]; simpl; auto.
  pose proof (filter_length_le (fun y => negb (y =? a)) (pd.unique l)) as H1.
  pose proof (unique_length_le l) as H2.
  intro H. assert (Hu : pd.unique l = l) by (apply IH; lia).
  f_equal. rewrite Hu in *. apply filter_length_eq. lia.
Qed.

Lemma unique_fixed (l : list Z) : NoDup l -> pd.unique l = l.
Proof.
  induction 1 as [|a l Ha Hl IH]; simpl; auto.
  f_equal. rewrite IH.
  apply filter_length_eq. f_equal.
  apply forallb_filter_id.
  apply forallb_forall. intros y Hy.
  rewrite negb_true_iff, Z.eqb_neq. congruence.
Qed.

Lemma unique_sorted (l : list Z) :
  StronglySorted Z.le l -> StronglySorted Z.lt (pd.unique l).
Proof.
  induction 1 as [|a l Hl IH Ha]; simpl; constructor.
  - clear - IH. induction IH as [|b s Hs IHs Hb]; simpl; [constructor|].
    destruct (negb (b =? a)); auto.
    constructor; auto.
    rewrite Forall_forall in *. intros y Hy.
    apply filter_In in Hy. apply Hb, Hy.
  - rewrite Forall_forall in *. intros y Hy.
    apply filter_In in Hy. destruct Hy as [Hy Hne].
    rewrite negb_true_iff, Z.eqb_neq in Hne.
    apply (proj1 (unique_in _ _)) in Hy. specialize (Ha y Hy). lia.
Qed.

Lemma drop_duplicate_edges_unique (bins : list quarters) :
  length bins <> 2%nat -> pd.drop_duplicate_edges bins = pd.unique bins.
Proof.
  intro Hlen. unfold pd.drop_duplicate_edges.
  destruct (Nat.ltb_spec (length (pd.unique bins)) (length bins)) as [Hlt|Hge]; simpl.
  - apply Nat.eqb_neq in Hlen. rewrite Hlen. reflexivity.
  - symmetry. apply unique_length_eq.
    pose proof (unique_length_le bins). lia.
Qed.

Lemma drop_duplicate_edges_fixed (bins : list quarters) :
  NoDup bins -> pd.drop_duplicate_edges bins = bins.
Proof.
  intro H. unfold pd.drop_duplicate_edges.
  rewrite (unique_fixed _ H). destruct (_ && _); reflexivity.
Qed.

Lemma sorted_lt_NoDup (l : list Z) : StronglySorted Z.lt l -> NoDup l.
Proof.
  induction 1 as [|a l Hl IH Ha]; constructor; auto.
  intro Hin. rewrite Forall_forall in Ha. specialize (Ha a Hin). lia.
Qed.

Lemma sorted_lt_monotonic (l : list Z) :
  StronglySorted Z.lt l -> pd.is_monotonic_increasing l = true.
Proof.
  induction 1 as [|a l Hl IH Ha]; auto.
  simpl. destruct l as [|b l]; auto.
  rewrite IH, andb_true_r. apply Z.leb_le.
  inversion Ha; subst. lia.
Qed.

(** ** Quantiles of a sorted column *)

Section Quantiles.

Variable s : list Z.
Hypothesis s_sorted : StronglySorted Z.le s.
Hypothesis s_nonempty : s <> [].

Let m := length s.

Lemma column_size : (1 <= m)%nat.
Proof. subst m. destruct s; simpl; [congruence | lia]. Qed.

Lemma virtual_index (k : nat) :
  (k <= 4)%nat ->
  exists (i : nat) (g : Z),
    (Z.of_nat m - 1) * Z.of_nat k = 4 * Z.of_nat i + g /\
    0 <= g < 4 /\ (i <= m - 1)%nat /\ (g = 0 \/ (i < m - 1)%nat) /\
    pd.quantile s k =
      4 * nth i s 0 + g * (nth (Nat.min (S i) (m - 1)) s 0 - nth i s 0).
Proof.
  intro Hk. pose proof column_size as Hm.
  set (h := (Z.of_nat m - 1) * Z.of_nat k).
  assert (Hh : 0 <= h <= 4 * (Z.of_nat m - 1)) by (subst h; nia).
  pose proof (Z.div_mod h 4 ltac:(lia)) as Hdm.
  pose proof (Z.mod_pos_bound h 4 ltac:(lia)) as Hmod.
  assert (Hdiv : 0 <= h / 4) by (apply Z.div_pos; lia).
  exists (Z.to_nat (h / 4)), (h mod 4).
  rewrite Z2Nat.id by exact Hdiv.
  repeat split; lia.
Qed.

Lemma quantile_bounds (k : nat) :
  (k <= 4)%nat ->
  exists i : nat,
    (Z.of_nat m - 1) * Z.of_nat k / 4 = Z.of_nat i /\ (i <= m - 1)%nat /\
    4 * nth i s 0 <= pd.quantile s k <= 4 * nth (Nat.min (S i) (m - 1)) s 0.
Proof.
  intro Hk. destruct (virtual_index k Hk) as (i & g & Hh & Hg & Hi & Hlast & Hq).
  exists i. split; [|split; [exact Hi|]].
  - rewrite Hh. symmetry. apply Z.div_unique with g; lia.
  - pose proof column_size as Hm.
    assert (Hle : nth i s 0 <= nth (Nat.min (S i) (m - 1)) s 0).
    { apply sorted_nth_le; [exact s_sorted | subst m; lia]. }
    rewrite Hq. nia.
Qed.

Lemma quantile_mono (k k' : nat) :
  (k <= k')%nat -> (k' <= 4)%nat -> pd.quantile s k <= pd.quantile s k'.
Proof.
  intros Hkk Hk'.
  destruct (virtual_index k ltac:(lia)) as (i & g & Hh & Hg & Hi & Hlast & Hq).
  destruct (virtual_index k' Hk') as (i' & g' & Hh' & Hg' & Hi' & Hlast' & Hq').
  pose proof column_size as Hm.
  assert (Hhh : 4 * Z.of_nat i + g <= 4 * Z.of_nat i' + g') by nia.
  assert (Hii : (i <= i')%nat) by lia.
  assert (Hlo : nth i s 0 <= nth (Nat.min (S i) (m - 1)) s 0).
  { apply sorted_nth_le; [exact s_sorted | subst m; lia]. }
  assert (Hlo' : nth i' s 0 <= nth (Nat.min (S i') (m - 1)) s 0).
  { apply sorted_nth_le; [exact s_sorted | subst m; lia]. }
  rewrite Hq, Hq'.
  destruct (Nat.eq_dec i i') as [->|Hne].
  - assert (g <= g') by lia. nia.
  - assert (Hmid : nth (Nat.min (S i) (m - 1)) s 0 <= nth i' s 0).
    { apply sorted_nth_le; [exact s_sorted | subst m; lia]. }
    nia.
Qed.

Lemma quantile_first : pd.quantile s 0 = 4 * nth 0 s 0.
Proof.
  destruct (virtual_index 0 ltac:(lia)) as (i & g & Hh & Hg & Hi & Hlast & Hq).
  assert (i = 0%nat /\ g = 0) as [-> ->] by lia.
  rewrite Hq. lia.
Qed.

Lemma quantile_last : pd.quantile s 4 = 4 * nth (m - 1) s 0.
Proof.
  destruct (virtual_index 4 ltac:(lia)) as (i & g & Hh & Hg & Hi & Hlast & Hq).
  pose proof column_size as Hm.
  assert (i = (m - 1)%nat /\ g = 0) as [-> ->] by lia.
  rewrite Hq. lia.
Qed.

Lemma sorted_range (v : Z) :
  In v s -> nth 0 s 0 <= v <= nth (m - 1) s 0.
Proof.
  intro Hin. pose proof column_size as Hm.
  destruct (In_nth _ _ 0 Hin) as (j & Hj & <-).
  split; apply sorted_nth_le; try exact s_sorted; subst m; lia.
Qed.

End Quantiles.

(** ** The surviving cut points *)

Lemma edges_empty : edges [] = [0].
Proof. reflexivity. Qed.

Lemma edges_unique (column : list Z) :
  edges column = pd.unique (map (pd.quantile (ZSort.sort column)) pd.linspace4).
Proof.
  unfold edges, pd.qcut; simpl snd.
  apply drop_duplicate_edges_unique. simpl. lia.
Qed.

Lemma sort_nonempty (column : list Z) : column <> [] -> ZSort.sort column <> [].
Proof.
  intros Hne Hs. apply Hne.
  apply length_zero_iff_nil. rewrite <- sort_length, Hs. reflexivity.
Qed.

Lemma raw_edges_sorted (column : list Z) :
  StronglySorted Z.le (map (pd.quantile (ZSort.sort column)) pd.linspace4).
Proof.
  destruct column as [|x xs].
  - repeat constructor; vm_compute; congruence.
  - apply Sorted_StronglySorted; [intros a b c; apply Z.le_trans|].
    assert (Hs := sort_sorted (x :: xs)).
    assert (Hn : ZSort.sort (x :: xs) <> []) by (apply sort_nonempty; congruence).
    simpl map.
    repeat (constructor; try (apply quantile_mono; auto with arith)).
Qed.

Lemma edges_sorted (column : list Z) : StronglySorted Z.lt (edges column).
Proof. rewrite edges_unique. apply unique_sorted, raw_edges_sorted. Qed.

Lemma edges_length (column : list Z) : (1 <= length (edges column) <= 5)%nat.
Proof.
  rewrite edges_unique. split.
  - simpl. lia.
  - etransitivity; [apply unique_length_le|]. simpl. lia.
Qed.

Lemma usable_bins_range (column : list Z) : 0 <= usable_bins column <= 4.
Proof. unfold usable_bins. pose proof (edges_length column). lia. Qed.

Lemma edges_first (column : list Z) :
  column <> [] ->
  nth 0 (edges column) 0 = to_quarters (nth 0 (ZSort.sort column) 0).
Proof.
  intro Hne. rewrite edges_unique. simpl.
  apply quantile_first; [apply sort_sorted | apply sort_nonempty, Hne].
Qed.

Lemma edges_top (column : list Z) :
  column <> [] ->
  In (to_quarters (nth (length column - 1) (ZSort.sort column) 0)) (edges column).
Proof.
  intro Hne. rewrite edges_unique. apply unique_in.
  rewrite <- (sort_length column).
  unfold to_quarters.
  rewrite <- quantile_last; [| apply sort_sorted | apply sort_nonempty, Hne].
  simpl. tauto.
Qed.

Lemma column_in_range (column : list Z) (v : Z) :
  In v column ->
  nth 0 (edges column) 0 <= to_quarters v /\
  exists top, In top (edges column) /\ to_quarters v <= top.
Proof.
  intro Hin.
  assert (Hne : column <> []) by (intros ->; contradiction).
  assert (Hr := sorted_range (ZSort.sort column) (sort_sorted column)
                  (sort_nonempty column Hne) v (proj2 (sort_in column v) Hin)).
  rewrite sort_length in Hr.
  split.
  - rewrite (edges_first column Hne). unfold to_quarters. lia.
  - eexists. split; [apply (edges_top column Hne)|]. unfold to_quarters. lia.
Qed.

(** ** Bin numbers *)

Lemma searchsorted_left_le (bins : list quarters) (v : quarters) :
  (pd.searchsorted_left bins v <= length bins)%nat.
Proof.
  induction bins as [|b bs IH]; simpl; auto.
  destruct (b <? v); simpl; lia.
Qed.

Lemma searchsorted_left_full (bins : list quarters) (v : quarters) :
  pd.searchsorted_left bins v = length bins -> Forall (fun b => b < v) bins.
Proof.
  induction bins as [|b bs IH]; simpl; intro H; constructor;
    destruct (Z.ltb_spec b v); try discriminate; auto.
Qed.

(** On increasing edges, the insertion point of the [j]-th edge is [j]. *)
Lemma searchsorted_left_edge (bins : list quarters) :
  StronglySorted Z.lt bins ->
  forall j, (j < length bins)%nat ->
       pd.searchsorted_left bins (nth j bins 0) = j.
Proof.
  induction 1 as [|b bs Hs IH Hb]; intros j Hj; simpl in *; [lia|].
  destruct j as [|j].
  - rewrite Z.ltb_irrefl. reflexivity.
  - assert (Hlt : b < nth j bs 0).
    { rewrite Forall_forall in Hb. apply Hb, nth_In. lia. }
    apply Z.ltb_lt in Hlt. rewrite Hlt. f_equal. apply IH. lia.
Qed.

Lemma bin_id_range (bins : list quarters) (v : Z) :
  (2 <= length bins)%nat ->
  nth 0 bins 0 <= to_quarters v ->
  (exists top, In top bins /\ to_quarters v <= top) ->
  (1 <= pd.bin_id bins true v <= length bins - 1)%nat.
Proof.
  intros Hlen Hlow (top & Htop & Hv).
  unfold pd.bin_id. simpl andb.
  destruct (Z.eqb_spec (to_quarters v) (nth 0 bins 0)) as [Heq|Hne].
  - destruct (Nat.eqb_spec 1 (length bins)); simpl; lia.
  - pose proof (searchsorted_left_le bins (to_quarters v)) as Hle.
    assert (Hfull : pd.searchsorted_left bins (to_quarters v) <> length bins).
    { intro Hfull. apply searchsorted_left_full in Hfull.
      rewrite Forall_forall in Hfull. specialize (Hfull top Htop). lia. }
    assert (Hpos : (1 <= pd.searchsorted_left bins (to_quarters v))%nat).
    { destruct bins as [|b bs]; simpl in *; [lia|].
      destruct (Z.ltb_spec b (to_quarters v)); lia. }
    destruct (Nat.eqb_spec (pd.searchsorted_left bins (to_quarters v)) (length bins));
      [contradiction|].
    destruct (Nat.eqb_spec (pd.searchsorted_left bins (to_quarters v)) 0); simpl; lia.
Qed.

Lemma take_nd_length {A : Type} (labels : list A) (ids : list nat) :
  length (pd.take_nd labels ids) = length ids.
Proof. apply length_map. Qed.

(** ** Slices *)

Lemma slice_from_zero {A : Type} (l : list A) : py.slice_from (- 0) l = l.
Proof.
  unfold py.slice_from. simpl.
  replace (Z.to_nat (Z.min 0 (Z.of_nat (length l)))) with 0%nat by lia.
  reflexivity.
Qed.

Lemma lastn_skipn {A : Type} (n : nat) (l : list A) :
  lastn n l = skipn (length l - n) l.
Proof.
  unfold lastn. rewrite firstn_rev, rev_involutive. reflexivity.
Qed.

Lemma slice_from_last {A : Type} (n : nat) (l : list A) :
  (1 <= n)%nat -> py.slice_from (- Z.of_nat n) l = lastn n l.
Proof.
  intro Hn. rewrite lastn_skipn. unfold py.slice_from.
  destruct (Z.ltb_spec (- Z.of_nat n) 0); [|lia].
  f_equal. lia.
Qed.

Lemma lastn_length {A : Type} (n : nat) (l : list A) :
  (n <= length l)%nat -> length (lastn n l) = n.
Proof. intro H. rewrite lastn_skipn, length_skipn. lia. Qed.

Lemma NoDup_skipn {A : Type} (k : nat) (l : list A) : NoDup l -> NoDup (skipn k l).
Proof.
  revert l. induction k as [|k IH]; intros l H; simpl; auto.
  destruct l; auto. inversion H; auto.
Qed.

Lemma slice_from_NoDup {A : Type} (start : Z) (l : list A) :
  NoDup l -> NoDup (py.slice_from start l).
Proof. apply NoDup_skipn. Qed.

(** ** [_dynamic_qcut] *)

Lemma dynamic_qcut_unfold (column labels : list Z) :
  _dynamic_qcut column labels =
  pd.cut column (edges column) (py.slice_from (- usable_bins column) labels) true.
Proof. reflexivity. Qed.

Lemma cut_edges (column labels : list Z) :
  NoDup labels ->
  pd.cut column (edges column) labels true =
  if (S (length labels) =? length (edges column))%nat
  then Ok (pd.take_nd labels (pd.bin_ids column (edges column) true))
  else Raise (ValueError "Bin labels must be one fewer than the number of bin edges").
Proof.
  intro Hnd. unfold pd.cut.
  pose proof (edges_sorted column) as Hs.
  rewrite (sorted_lt_monotonic _ Hs). cbn [negb].
  rewrite (drop_duplicate_edges_fixed _ (sorted_lt_NoDup _ Hs)).
  rewrite (unique_fixed _ Hnd), Nat.eqb_refl. cbn [negb].
  destruct (S (length labels) =? length (edges column))%nat; reflexivity.
Qed.

(** No usable bin: the slice [labels[-0:]] is the whole list, and [pd.cut]
    refuses four labels for zero bins. *)
Lemma dynamic_qcut_no_bin (column labels : list Z) :
  NoDup labels -> labels <> [] -> usable_bins column = 0 ->
  _dynamic_qcut column labels =
  Raise (ValueError "Bin labels must be one fewer than the number of bin edges").
Proof.
  intros Hnd Hne Hn. rewrite dynamic_qcut_unfold, Hn, slice_from_zero.
  rewrite (cut_edges _ _ Hnd).
  unfold usable_bins in Hn.
  destruct (Nat.eqb_spec (S (length labels)) (length (edges column))) as [Heq|]; auto.
  destruct labels; [congruence | simpl in Heq; lia].
Qed.

(** At least one usable bin: the last [n] labels are handed to [pd.cut],
    which labels every value by its bin. *)
Lemma dynamic_qcut_bins (column labels : list Z) (n : nat) :
  NoDup labels -> length labels = 4%nat ->
  usable_bins column = Z.of_nat n -> (1 <= n)%nat ->
  _dynamic_qcut column labels =
  Ok (pd.take_nd (lastn n labels) (pd.bin_ids column (edges column) true)).
Proof.
  intros Hnd Hlen Hn Hpos. rewrite dynamic_qcut_unfold, Hn.
  rewrite (slice_from_last _ _ Hpos).
  assert (Hnd' : NoDup (lastn n labels)).
  { rewrite lastn_skipn. apply NoDup_skipn, Hnd. }
  rewrite (cut_edges _ _ Hnd').
  pose proof (usable_bins_range column) as Hr. unfold usable_bins in *.
  rewrite lastn_length by lia.
  destruct (Nat.eqb_spec (S n) (length (edges column))); [reflexivity | lia].
Qed.

Lemma dynamic_qcut_length (column labels : list Z) (ls : list (option Z)) :
  _dynamic_qcut column labels = Ok ls -> length ls = length column.
Proof.
  rewrite dynamic_qcut_unfold. unfold pd.cut.
  repeat (destruct (negb _); [discriminate|]).
  intro H; injection H as <-.
  rewrite take_nd_length. apply length_map.
Qed.

Lemma take_nd_labelled {A : Type} (labels : list A) (ids : list nat) :
  Forall (fun id => (1 <= id <= length labels)%nat) ids ->
  Forall (fun l => exists a, l = Some a /\ In a labels) (pd.take_nd labels ids).
Proof.
  induction 1 as [|id ids Hid Hids IH]; simpl; constructor; auto.
  destruct id as [|j]; [lia|].
  destruct (nth_error labels j) as [a|] eqn:Hj.
  - exists a. split; auto. eapply nth_error_In, Hj.
  - apply nth_error_None in Hj. lia.
Qed.

Lemma bin_ids_range (column : list Z) :
  (2 <= length (edges column))%nat ->
  Forall (fun id => (1 <= id <= length (edges column) - 1)%nat)
         (pd.bin_ids column (edges column) true).
Proof.
  intro Hlen. unfold pd.bin_ids. rewrite Forall_map, Forall_forall.
  intros v Hv. destruct (column_in_range column v Hv) as [Hlow Htop].
  apply bin_id_range; assumption.
Qed.

Lemma lastn_incl {A : Type} (n : nat) (l : list A) (a : A) :
  In a (lastn n l) -> In a l.
Proof.
  rewrite lastn_skipn. intro H.
  rewrite <- (firstn_skipn (length l - n) l). apply in_or_app. auto.
Qed.

(** A successful call labels every value, with one of the given labels. *)
Lemma dynamic_qcut_labelled (column labels : list Z) (ls : list (option Z)) :
  NoDup labels -> length labels = 4%nat ->
  _dynamic_qcut column labels = Ok ls ->
  (1 <= usable_bins column)%Z /\
  ls = pd.take_nd (lastn (Z.to_nat (usable_bins column)) labels)
                  (pd.bin_ids column (edges column) true) /\
  Forall (fun l => exists z, l = Some z /\
                   In z (lastn (Z.to_nat (usable_bins column)) labels)) ls.
Proof.
  intros Hnd Hlen Hok.
  pose proof (usable_bins_range column) as Hr.
  assert (Hn : 1 <= usable_bins column).
  { destruct (Z.eq_dec (usable_bins column) 0) as [H0|]; [|lia].
    rewrite (dynamic_qcut_no_bin _ _ Hnd) in Hok; [discriminate| |exact H0].
    destruct labels; [discriminate | congruence]. }
  rewrite (dynamic_qcut_bins column labels (Z.to_nat (usable_bins column)))
    in Hok by (auto; lia).
  injection Hok as <-.
  split; [exact Hn|]. split; [reflexivity|].
  apply take_nd_labelled.
  rewrite lastn_length by lia.
  eapply Forall_impl; [|apply bin_ids_range].
  - intros id Hid. unfold usable_bins in *. lia.
  - unfold usable_bins in *. lia.
Qed.

(** ** The aggregation *)

Lemma fold_max_spec (xs : list Z) (x : Z) :
  is_maximum (fold_left Z.max xs x) (x :: xs).
Proof.
  unfold is_maximum. revert x.
  induction xs as [|y ys IH]; intro x; simpl.
  - split; [auto | constructor; [lia | constructor]].
  - destruct (IH (Z.max x y)) as [Hin Hall].
    inversion Hall as [|a l Ha Hl]; subst. split.
    + destruct Hin as [Hin|Hin]; [|right; right; exact Hin].
      destruct (Z.max_spec x y) as [[_ Hm]|[_ Hm]];
        [right; left | left]; rewrite <- Hin; symmetry; exact Hm.
    + constructor; [lia|]. constructor; [lia | exact Hl].
Qed.

Lemma max_spec (column : list Z) :
  column <> [] -> is_maximum (pd.max column) column.
Proof.
  destruct column as [|x xs]; [congruence|]. intros _. apply fold_max_spec.
Qed.

Lemma is_maximum_unique (l : list Z) (a b : Z) :
  is_maximum a l -> is_maximum b l -> a = b.
Proof.
  intros [Ha Hla] [Hb Hlb]. rewrite Forall_forall in Hla, Hlb.
  specialize (Hla b Hb). specialize (Hlb a Ha). lia.
Qed.

Lemma sum_total (column : list Z) : pd.sum column = total column.
Proof.
  unfold pd.sum, total. rewrite <- fold_left_rev_right.
  assert (H : forall l a, fold_right (fun y x => x + y) a l = fold_right Z.add a l).
  { induction l as [|y l IH]; intro a; simpl; [reflexivity | rewrite IH; lia]. }
  rewrite H. clear H.
  induction column as [|x xs IH]; simpl; auto.
  rewrite fold_right_app. simpl. rewrite <- IH.
  generalize (rev xs). intro l.
  replace (x + 0) with x by lia.
  induction l as [|y l IHl]; simpl; lia.
Qed.

Lemma days_floor (delta : Z) :
  ns_per_day * days delta <= delta < ns_per_day * (days delta + 1).
Proof.
  unfold days. assert (H : 0 < ns_per_day) by reflexivity.
  pose proof (Z.div_mod delta ns_per_day ltac:(lia)).
  pose proof (Z.mod_pos_bound delta ns_per_day H). lia.
Qed.

Lemma days_nonneg (delta : Z) : 0 <= delta -> 0 <= days delta.
Proof. intro H. apply Z.div_pos; [exact H | reflexivity]. Qed.

Lemma group_keys_in (df : DataFrame) (key : Z) :
  In key (group_keys df) <-> In key (map id df).
Proof. unfold group_keys. rewrite sort_in. apply unique_in. Qed.

Lemma group_keys_NoDup (df : DataFrame) : NoDup (group_keys df).
Proof.
  unfold group_keys.
  eapply Permutation_NoDup; [apply sort_perm | apply unique_NoDup].
Qed.

Lemma group_rows_in (df : DataFrame) (key : Z) (row : Transaction) :
  In row (group_rows df key) <-> In row df /\ id row = key.
Proof. unfold group_rows. rewrite filter_In, Z.eqb_eq. tauto. Qed.

Lemma group_rows_nonempty (df : DataFrame) (key : Z) :
  In key (group_keys df) -> group_rows df key <> [].
Proof.
  rewrite group_keys_in, in_map_iff. intros (row & Hid & Hin) Hnil.
  assert (H : In row (group_rows df key)) by (apply group_rows_in; auto).
  rewrite Hnil in H. contradiction.
Qed.

Lemma aggregate_in (df : DataFrame) (latest : Z) (row : Metrics) :
  In row (aggregate df latest) <->
  In (index row) (group_keys df) /\
  row = agg latest (index row, group_rows df (index row)).
Proof.
  unfold aggregate, groupby. rewrite map_map, in_map_iff. split.
  - intros (key & <- & Hkey). simpl. auto.
  - intros [Hkey Hrow]. exists (index row). auto.
Qed.

Lemma aggregate_index (df : DataFrame) (latest : Z) :
  map index (aggregate df latest) = group_keys df.
Proof.
  unfold aggregate, groupby. rewrite !map_map. simpl. apply map_id.
Qed.

(** ** The scored frame *)

Lemma assign_scores_columns (rows : list Metrics) :
  forall rs fs ms : list (option Z),
    length rs = length rows -> length fs = length rows -> length ms = length rows ->
    map metrics (assign_scores rows rs fs ms) = rows /\
    map R (assign_scores rows rs fs ms) = rs /\
    map F (assign_scores rows rs fs ms) = fs /\
    map M (assign_scores rows rs fs ms) = ms.
Proof.
  induction rows as [|row rows IH]; intros [|r rs] [|f fs] [|m ms];
    simpl; intros Hr Hf Hm; try discriminate; auto.
  destruct (IH rs fs ms) as (H1 & H2 & H3 & H4); try congruence.
  rewrite H1, H2, H3, H4. auto.
Qed.

Lemma assign_scores_row (rows : list Metrics) :
  forall (rs fs ms : list (option Z)) (row : RFMRow),
    In row (assign_scores rows rs fs ms) ->
    In (R row) rs /\ In (F row) fs /\ In (M row) ms /\
    RFM_Segment row = segment_of (R row) (F row) (M row) /\
    RFM_Score row = score_of (R row) (F row) (M row).
Proof.
  induction rows as [|x rows IH]; intros [|r rs] [|f fs] [|m ms] row;
    simpl; try contradiction.
  intros [<-|Hin]; simpl.
  - auto 10.
  - destruct (IH _ _ _ _ Hin) as (H1 & H2 & H3 & H4). auto 10.
Qed.

Lemma calculate_rfm_inv (table : DataFrame) (latest : Z) (rows : list RFMRow) :
  _calculate_rfm table latest = Ok rows ->
  exists rs fs ms,
    _dynamic_qcut (map Recency (aggregate table latest)) [4; 3; 2; 1] = Ok rs /\
    _dynamic_qcut (map Frequency (aggregate table latest)) [1; 2; 3; 4] = Ok fs /\
    _dynamic_qcut (map Monetary (aggregate table latest)) [1; 2; 3; 4] = Ok ms /\
    rows = assign_scores (aggregate table latest) rs fs ms.
Proof.
  unfold _calculate_rfm.
  destruct (_dynamic_qcut (map Recency _) _) as [rs|]; [|discriminate].
  destruct (_dynamic_qcut (map Frequency _) _) as [fs|]; [|discriminate].
  destruct (_dynamic_qcut (map Monetary _) _) as [ms|]; [|discriminate].
  simpl. intro H; injection H as <-. exists rs, fs, ms. auto.
Qed.

Lemma init_inv (table : DataFrame) (self : RFM) :
  __init__ table = Ok self ->
  df self = table /\
  latest_date self = pd.max (map IslemTarih table) /\
  _calculate_rfm table (pd.max (map IslemTarih table)) = Ok (rfm self).
Proof.
  unfold __init__.
  destruct (_calculate_rfm table _) as [rows|]; [|discriminate].
  simpl. intro H; injection H as <-. auto.
Qed.

Lemma calculate_rfm_metrics (table : DataFrame) (latest : Z) (rows : list RFMRow) :
  _calculate_rfm table latest = Ok rows ->
  map metrics rows = aggregate table latest.
Proof.
  intro H. destruct (calculate_rfm_inv _ _ _ H) as (rs & fs & ms & Hr & Hf & Hm & ->).
  apply dynamic_qcut_length in Hr, Hf, Hm. rewrite length_map in Hr, Hf, Hm.
  apply assign_scores_columns; assumption.
Qed.

Lemma four_three_two_one : NoDup [4; 3; 2; 1] /\ length [4; 3; 2; 1] = 4%nat.
Proof. split; [|reflexivity]. repeat constructor; simpl; intuition lia. Qed.

Lemma one_two_three_four : NoDup [1; 2; 3; 4] /\ length [1; 2; 3; 4] = 4%nat.
Proof. split; [|reflexivity]. repeat constructor; simpl; intuition lia. Qed.

Lemma label_digit (labels : list Z) (n : nat) (z : Z) :
  labels = [4; 3; 2; 1] \/ labels = [1; 2; 3; 4] ->
  In z (lastn n labels) -> z = 1 \/ z = 2 \/ z = 3 \/ z = 4.
Proof.
  intros Hl Hin. apply lastn_incl in Hin.
  destruct Hl; subst labels; simpl in Hin; intuition.
Qed.

(** Every row of a scored frame has its three labels, each in 1..4. *)
Lemma calculate_rfm_labels (table : DataFrame) (latest : Z) (rows : list RFMRow) :
  _calculate_rfm table latest = Ok rows ->
  forall row, In row rows ->
    exists r f m,
      R row = Some r /\ F row = Some f /\ M row = Some m /\
      In r [1; 2; 3; 4] /\ In f [1; 2; 3; 4] /\ In m [1; 2; 3; 4] /\
      RFM_Segment row = segment_of (Some r) (Some f) (Some m) /\
      RFM_Score row = score_of (Some r) (Some f) (Some m).
Proof.
  intros H row Hrow.
  destruct (calculate_rfm_inv _ _ _ H) as (rs & fs & ms & Hr & Hf & Hm & ->).
  destruct (assign_scores_row _ _ _ _ _ Hrow) as (HR & HF & HM & Hseg & Hsc).
  destruct four_three_two_one as [Hnd1 Hlen1].
  destruct one_two_three_four as [Hnd2 Hlen2].
  apply (dynamic_qcut_labelled _ _ _ Hnd1 Hlen1) in Hr.
  apply (dynamic_qcut_labelled _ _ _ Hnd2 Hlen2) in Hf.
  apply (dynamic_qcut_labelled _ _ _ Hnd2 Hlen2) in Hm.
  destruct Hr as (_ & _ & Hr), Hf as (_ & _ & Hf), Hm as (_ & _ & Hm).
  rewrite Forall_forall in Hr, Hf, Hm.
  destruct (Hr _ HR) as (r & Er & Ir).
  destruct (Hf _ HF) as (f & Ef & If).
  destruct (Hm _ HM) as (m & Em & Im).
  exists r, f, m. rewrite Hseg, Hsc, Er, Ef, Em.
  apply label_digit in Ir, If, Im; auto.
  simpl. intuition.
Qed.

(** ** Frequencies partition the rows *)

Lemma total_add {A : Type} (f g : A -> Z) (l : list A) :
  total (map (fun a => f a + g a) l) = total (map f l) + total (map g l).
Proof. unfold total. induction l as [|a l IH]; simpl; lia. Qed.

Lemma total_indicator (keys : list Z) (a : Z) :
  NoDup keys -> In a keys ->
  total (map (fun k => if a =? k then 1 else 0) keys) = 1.
Proof.
  unfold total. induction 1 as [|k keys Hk Hnd IH]; simpl; [contradiction|].
  assert (Hout : forall l, ~ In a l ->
            fold_right Z.add 0 (map (fun k => if a =? k then 1 else 0) l) = 0).
  { induction l as [|x l IHl]; simpl; auto. intro Hn.
    destruct (Z.eqb_spec a x); [subst; tauto|]. rewrite IHl; tauto. }
  intros [->|Hin].
  - rewrite Z.eqb_refl, Hout; auto.
  - destruct (Z.eqb_spec a k); [subst; contradiction|]. rewrite IH; auto.
Qed.

Lemma frequency_partition (keys : list Z) (table : DataFrame) :
  NoDup keys -> (forall row, In row table -> In (id row) keys) ->
  total (map (fun key => pd.count (map IslemID (group_rows table key))) keys)
  = Z.of_nat (length table).
Proof.
  intros Hnd. unfold pd.count, group_rows.
  induction table as [|row table IH]; intro Hall.
  - clear. unfold total. induction keys as [|k keys IHk]; simpl; auto.
  - rewrite (map_ext _ (fun key =>
       Z.of_nat (length (map IslemID (filter (fun r => id r =? key) table)))
       + (if id row =? key then 1 else 0))).
    + rewrite total_add, IH, total_indicator; simpl length; auto with datatypes.
      lia.
    + intro key. simpl filter. destruct (id row =? key); simpl length; lia.
Qed.

(** ** Aggregator *)

Lemma aggregate_frequency_total (table : DataFrame) (latest : Z) :
  total (map Frequency (aggregate table latest)) = Z.of_nat (length table).
Proof.
  unfold aggregate, groupby. rewrite !map_map. simpl.
  apply frequency_partition.
  - apply group_keys_NoDup.
  - intros row Hrow. apply group_keys_in, in_map, Hrow.
Qed.

(** C7.  For every transaction table (and whatever the latest date), the
    Frequency values of the aggregated frame add up to the number of rows of
    the table; so do those of the frame of every constructed object. *)
Theorem frequency_sum_is_row_count (table : DataFrame) :
  (forall latest : Z,
     total (map Frequency (aggregate table latest)) = Z.of_nat (length table)) /\
  (forall self : RFM,
     __init__ table = Ok self ->
     total (map (fun row => Frequency (metrics row)) (rfm self))
     = Z.of_nat (length table)).
Proof.
  split; [intro latest; apply aggregate_frequency_total|].
  intros self H. destruct (init_inv _ _ H) as (_ & _ & Hrfm).
  rewrite <- (map_map metrics Frequency), (calculate_rfm_metrics _ _ _ Hrfm).
  apply aggregate_frequency_total.
Qed.

Lemma frequency_sum_is_row_count_witness :
  total (map Frequency (aggregate sample_table 0)) = 15 /\
  __init__ sample_table = Ok sample_object /\
  total (map (fun row => Frequency (metrics row)) (rfm sample_object)) = 15.
Proof.
  destruct (frequency_sum_is_row_count sample_table) as [Hagg Hobj].
  split; [exact (Hagg 0)|].
  assert (Hinit : __init__ sample_table = Ok sample_object) by reflexivity.
  split; [exact Hinit | exact (Hobj sample_object Hinit)].
Defined.

(** C3.  The object keeps one latest date, the maximum timestamp of the
    whole table, and its frame carries the aggregated metrics; and every
    customer row of the aggregation has as Recency the whole days, rounded
    down, between that maximum and the customer's own maximum timestamp, a
    number that is never negative. *)
Theorem recency_is_floored_gap (table : DataFrame) :
  (forall self, __init__ table = Ok self ->
     latest_date self = pd.max (map IslemTarih table) /\
     map metrics (rfm self) = aggregate table (latest_date self)) /\
  (forall row, In row (aggregate table (pd.max (map IslemTarih table))) ->
     exists t_max own,
       is_maximum t_max (map IslemTarih table) /\
       is_maximum own (map IslemTarih (group_rows table (index row))) /\
       ns_per_day * Recency row <= t_max - own
         < ns_per_day * (Recency row + 1) /\
       0 <= Recency row).
Proof.
  split.
  - intros self H. destruct (init_inv _ _ H) as (_ & Hl & Hrfm).
    rewrite Hl. split; [reflexivity|]. apply calculate_rfm_metrics, Hrfm.
  - intros row Hrow. apply aggregate_in in Hrow. destruct Hrow as [Hkey Hrow].
    pose proof (group_rows_nonempty _ _ Hkey) as Hne.
    assert (Htable : map IslemTarih table <> []).
    { destruct table; [|discriminate]. simpl in Hne. congruence. }
    set (group := group_rows table (index row)) in *.
    assert (Hgroup : map IslemTarih group <> []).
    { destruct group; [congruence | discriminate]. }
    pose proof (max_spec _ Htable) as Hmax.
    pose proof (max_spec _ Hgroup) as Hown.
    exists (pd.max (map IslemTarih table)), (pd.max (map IslemTarih group)).
    assert (Hrec : Recency row =
              days (pd.max (map IslemTarih table) - pd.max (map IslemTarih group))).
    { rewrite Hrow at 1. reflexivity. }
    assert (Hle : pd.max (map IslemTarih group) <= pd.max (map IslemTarih table)).
    { destruct Hown as [Hin _], Hmax as [_ Hall].
      rewrite Forall_forall in Hall. apply Hall.
      apply in_map_iff in Hin. destruct Hin as (t & <- & Ht).
      apply in_map. apply group_rows_in in Ht. tauto. }
    repeat split; try apply Hmax; try apply Hown; rewrite Hrec.
    + apply days_floor.
    + apply days_floor.
    + apply days_nonneg. lia.
Qed.

Lemma recency_is_floored_gap_witness :
  exists t_max own,
    is_maximum t_max (map IslemTarih sample_table) /\
    is_maximum own (map IslemTarih (group_rows sample_table 4)) /\
    ns_per_day * 3 <= t_max - own < ns_per_day * (3 + 1) /\
    0 <= 3.
Proof.
  apply (proj2 (recency_is_floored_gap sample_table)
               (mkMetrics 4 3 4 40)).
  vm_compute. tauto.
Defined.

(** ** Segment and score *)

(** With an int64 amounts column: in the frame of every constructed object,
    each customer has its three labels; Segment is the R, F and M labels
    written one after the other, Score is their sum, and that sum is the sum
    of the digits of Segment. *)
Lemma segment_and_score_int64 (table : DataFrame) (self : RFM) :
  __init__ table = Ok self ->
  forall row, In row (rfm self) ->
    exists r f m,
      R row = Some r /\ F row = Some f /\ M row = Some m /\
      RFM_Segment row = (py.str r ++ py.str f ++ py.str m)%string /\
      RFM_Score row = r + f + m /\
      RFM_Score row = digit_sum (RFM_Segment row).
Proof.
  intros H row Hrow. destruct (init_inv _ _ H) as (_ & _ & Hrfm).
  destruct (calculate_rfm_labels _ _ _ Hrfm row Hrow)
    as (r & f & m & Er & Ef & Em & Ir & If & Im & Hseg & Hsc).
  exists r, f, m. rewrite Hseg, Hsc.
  repeat split; auto.
  simpl in Ir, If, Im.
  repeat match goal with
         | H : _ \/ _ |- _ => destruct H
         | H : False |- _ => contradiction
         end; subst; reflexivity.
Qed.

(** C5 (the code departs from it).  With a float64 amounts column the row
    that the f-string formats is float64, and every label is written with
    [".0"]: on [fractional_table] the object is constructed, customer 1 has
    the labels 4, 1, 1, the Score 6 and the Segment ["4.01.01.0"], customer
    2 the labels 1, 4, 4, the Score 9 and the Segment ["1.04.04.0"].  Score
    is the sum of the labels, but Segment is not the three labels written
    one after the other, and its digits are not three digits that add up to
    Score.  The same rows with an int64 amounts column give ["411"] and
    ["144"]. *)
Theorem float_amounts_segment :
  exists self,
    Typed.__init__ float64 fractional_table = Ok self /\
    map (fun row => (index (metrics row), R row, F row, M row,
                     RFM_Segment row, RFM_Score row)) (rfm self)
    = [ (1, Some 4, Some 1, Some 1, "4.01.01.0"%string, 6);
        (2, Some 1, Some 4, Some 4, "1.04.04.0"%string, 9) ] /\
    (forall row, In row (rfm self) ->
       exists r f m,
         R row = Some r /\ F row = Some f /\ M row = Some m /\
         RFM_Score row = r + f + m /\
         RFM_Segment row <> (py.str r ++ py.str f ++ py.str m)%string /\
         RFM_Segment row
         = ((py.str r ++ ".0") ++ (py.str f ++ ".0") ++ (py.str m ++ ".0"))%string /\
         String.length (RFM_Segment row) <> 3%nat /\
         digit_sum (RFM_Segment row) <> RFM_Score row) /\
    exists self',
      Typed.__init__ int64 fractional_table = Ok self' /\
      map RFM_Segment (rfm self') = ["411"%string; "144"%string] /\
      map RFM_Score (rfm self') = [6; 9].
Proof.
  destruct (Typed.__init__ float64 fractional_table) as [self|e] eqn:E;
    [|vm_compute in E; discriminate].
  vm_compute in E. injection E as <-.
  eexists. split; [reflexivity|]. split; [reflexivity|]. split.
  - intros row [<-|[<-|[]]].
    + exists 4, 1, 1. repeat split; try reflexivity; vm_compute; discriminate.
    + exists 1, 4, 4. repeat split; try reflexivity; vm_compute; discriminate.
  - eexists. split; [vm_compute; reflexivity|]. split; reflexivity.
Qed.

(** C6 (the code departs from it).  On [fractional_table], whose amounts
    column is float64, each of the three metrics keeps four usable bins and
    the object is constructed; yet every Segment has nine characters, among
    them the point and the digit 0. *)
Theorem float_amounts_segment_shape :
  let frame := Typed.aggregate float64 fractional_table
                 (pd.max (map IslemTarih fractional_table)) in
  usable_bins (map Recency frame) = 4 /\
  usable_bins (map Frequency frame) = 4 /\
  usable_bins (map Monetary frame) = 4 /\
  exists self,
    Typed.__init__ float64 fractional_table = Ok self /\
    length (rfm self) = 2%nat /\
    forall row, In row (rfm self) ->
      String.length (RFM_Segment row) = 9%nat /\
      In "."%char (list_ascii_of_string (RFM_Segment row)) /\
      In "0"%char (list_ascii_of_string (RFM_Segment row)) /\
      ~ (forall c, In c (list_ascii_of_string (RFM_Segment row)) ->
                   In c ["1"; "2"; "3"; "4"]%char).
Proof.
  intro frame. split; [reflexivity|]. split; [reflexivity|].
  split; [reflexivity|].
  destruct (Typed.__init__ float64 fractional_table) as [self|e] eqn:E;
    [|vm_compute in E; discriminate].
  vm_compute in E. injection E as <-.
  eexists. split; [reflexivity|]. split; [reflexivity|].
  intros row [<-|[<-|[]]]; simpl;
    (split; [reflexivity|]); (split; [tauto|]); (split; [tauto|]);
    intro H; specialize (H "."%char ltac:(tauto));
    simpl in H; intuition discriminate.
Qed.

(** ** Degenerate binning *)

Lemma tied_quantiles (column : list Z) (a : Z) :
  column <> [] -> (forall v, In v column -> v = a) ->
  forall k, (k <= 4)%nat -> pd.quantile (ZSort.sort column) k = to_quarters a.
Proof.
  intros Hne Htied k Hk.
  pose proof (sort_sorted column) as Hs.
  pose proof (sort_nonempty column Hne) as Hn.
  pose proof (quantile_mono _ Hs Hn 0 k ltac:(lia) Hk) as Hlo.
  pose proof (quantile_mono _ Hs Hn k 4 Hk ltac:(lia)) as Hhi.
  rewrite (quantile_first _ Hs Hn) in Hlo.
  rewrite (quantile_last _ Hs Hn) in Hhi.
  assert (Hnth : forall i, (i < length (ZSort.sort column))%nat ->
                      nth i (ZSort.sort column) 0 = a).
  { intros i Hi. apply Htied, sort_in, nth_In, Hi. }
  assert (Hlen : (1 <= length (ZSort.sort column))%nat).
  { destruct (ZSort.sort column); simpl; [congruence | lia]. }
  rewrite Hnth in Hlo, Hhi by lia. unfold to_quarters. lia.
Qed.

Lemma no_bin_iff_tied (column : list Z) :
  usable_bins column = 0 <->
  (forall v w, In v column -> In w column -> v = w).
Proof.
  destruct column as [|x xs] eqn:Hc; [split; [contradiction | reflexivity]|].
  rewrite <- Hc. assert (Hne : column <> []) by (subst; discriminate).
  clear Hc. split.
  - intros Hn v w Hv Hw.
    assert (Hlen : length (edges column) = 1%nat) by (unfold usable_bins in Hn; lia).
    destruct (column_in_range column v Hv) as (Hv1 & tv & Htv & Hv2).
    destruct (column_in_range column w Hw) as (Hw1 & tw & Htw & Hw2).
    destruct (edges column) as [|e [|e' es]]; try discriminate.
    simpl in *. unfold to_quarters in *.
    destruct Htv as [<-|[]], Htw as [<-|[]]. lia.
  - intro Htied. destruct column as [|a column']; [congruence|].
    assert (Ha : forall v, In v (a :: column') -> v = a).
    { intros v Hv. apply Htied; simpl; auto. }
    unfold usable_bins. rewrite edges_unique.
    unfold pd.linspace4. simpl map.
    rewrite !(tied_quantiles _ a Hne Ha) by lia.
    simpl. rewrite Z.eqb_refl. reflexivity.
Qed.

(** A frame that was scored has at least two customers: the sample
    deviation of its scores is defined. *)
Lemma scored_frame_size (table : DataFrame) (latest : Z) (rows : list RFMRow) :
  _calculate_rfm table latest = Ok rows -> (2 <= length rows)%nat.
Proof.
  intro H. pose proof (calculate_rfm_metrics _ _ _ H) as Hm.
  destruct (calculate_rfm_inv _ _ _ H) as (rs & _ & _ & Hr & _).
  destruct four_three_two_one as [Hnd Hlen].
  destruct (dynamic_qcut_labelled _ _ _ Hnd Hlen Hr) as (Hn & _).
  rewrite <- (length_map metrics), Hm, <- (length_map Recency).
  destruct (map Recency (aggregate table latest)) as [|a [|b l]] eqn:E;
    [| |simpl; lia].
  - vm_compute in Hn. congruence.
  - assert (H0 : usable_bins [a] = 0).
    { apply no_bin_iff_tied. simpl. intros v w [<-|[]] [<-|[]]. reflexivity. }
    lia.
Qed.

(** C1, as stated, fails: the column below keeps two distinct cut points,
    that is one usable bin, fewer than two, and it is scored all the same,
    every customer receiving the label 1; nothing is raised. *)
Lemma single_bin_is_scored :
  usable_bins [1; 1; 1; 1; 5] < 2 /\
  _dynamic_qcut [1; 1; 1; 1; 5] [4; 3; 2; 1]
    = Ok [Some 1; Some 1; Some 1; Some 1; Some 1] /\
  ~ raises (_dynamic_qcut [1; 1; 1; 1; 5] [4; 3; 2; 1]).
Proof.
  split; [reflexivity|]. split; [reflexivity|].
  intros [e He]. vm_compute in He. discriminate.
Qed.

(** C1, amended.  Among the columns that are not empty, with values in the
    range where the float64 boundaries of pandas are exact: a column whose
    boundaries collapse to fewer than two distinct cut points (no usable
    bin: exactly the columns whose values are all tied) is not scored,
    [_dynamic_qcut] raises the ValueError of [pd.cut] about the number of
    labels; a column left with exactly one usable bin raises nothing, and
    every customer receives the last label. *)
Theorem degenerate_binning (column labels : list Z) :
  exact_column column -> NoDup labels -> length labels = 4%nat ->
  ((length (edges column) < 2)%nat <->
   (forall v w, In v column -> In w column -> v = w)) /\
  ((length (edges column) < 2)%nat ->
   raises (_dynamic_qcut column labels) /\
   _dynamic_qcut column labels =
   Raise (ValueError "Bin labels must be one fewer than the number of bin edges")) /\
  (usable_bins column = 1 ->
   exists l, lastn 1 labels = [l] /\
             _dynamic_qcut column labels = Ok (map (fun _ => Some l) column)).
Proof.
  intros _ Hnd Hlen.
  pose proof (edges_length column) as Hel.
  assert (Hzero : (length (edges column) < 2)%nat <-> usable_bins column = 0).
  { unfold usable_bins. lia. }
  split; [rewrite Hzero; apply no_bin_iff_tied|]. split.
  - intro H. apply Hzero in H.
    assert (Hr := dynamic_qcut_no_bin column labels Hnd
                    ltac:(destruct labels; [discriminate | congruence]) H).
    split; [eexists; exact Hr | exact Hr].
  - intro H1.
    rewrite (dynamic_qcut_bins column labels 1 Hnd Hlen H1) by lia.
    pose proof (lastn_length 1 labels ltac:(lia)) as Hl.
    destruct (lastn 1 labels) as [|l [|l' ls]]; try discriminate.
    exists l. split; [reflexivity|]. f_equal.
    pose proof (bin_ids_range column) as Hids.
    unfold usable_bins in H1.
    specialize (Hids ltac:(lia)).
    unfold pd.take_nd, pd.bin_ids in *. rewrite map_map.
    rewrite Forall_map, Forall_forall in Hids.
    apply map_ext_in. intros v Hv. specialize (Hids v Hv).
    replace (pd.bin_id (edges column) true v) with 1%nat by lia.
    reflexivity.
Qed.

Lemma degenerate_binning_witness :
  ((length (edges tied_column) < 2)%nat <->
   (forall v w, In v tied_column -> In w tied_column -> v = w)) /\
  ((length (edges tied_column) < 2)%nat ->
   raises (_dynamic_qcut tied_column [1; 2; 3; 4]) /\
   _dynamic_qcut tied_column [1; 2; 3; 4] =
   Raise (ValueError "Bin labels must be one fewer than the number of bin edges")) /\
  (usable_bins tied_column = 1 ->
   exists l, lastn 1 [1; 2; 3; 4] = [l] /\
             _dynamic_qcut tied_column [1; 2; 3; 4]
             = Ok (map (fun _ => Some l) tied_column)).
Proof.
  apply (degenerate_binning tied_column [1; 2; 3; 4]).
  - split; [discriminate|]. split; [vm_compute; discriminate|].
    repeat constructor; vm_compute; discriminate.
  - repeat constructor; simpl; intuition lia.
  - reflexivity.
Defined.

(** ** The labels that survive *)

(** C4.  When the collapse of duplicates leaves [n] usable bins, with
    [2 <= n <= 4], the labels handed to [pd.cut] are the last [n] of the four
    given ones, for the ordering [4; 3; 2; 1] of Recency as for the ordering
    [1; 2; 3; 4] of Frequency and Monetary: the first [4 - n] are dropped,
    and every value is labelled from the last [n], by its bin. *)
Theorem last_labels_survive (column labels : list Z) (n : nat) :
  In labels [[4; 3; 2; 1]; [1; 2; 3; 4]] ->
  usable_bins column = Z.of_nat n -> (2 <= n <= 4)%nat ->
  py.slice_from (- usable_bins column) labels = lastn n labels /\
  labels = (firstn (4 - n) labels ++ lastn n labels)%list /\
  length (lastn n labels) = n /\
  _dynamic_qcut column labels = pd.cut column (edges column) (lastn n labels) true /\
  _dynamic_qcut column labels =
    Ok (pd.take_nd (lastn n labels) (pd.bin_ids column (edges column) true)) /\
  (labels = [4; 3; 2; 1] ->
   lastn 2 labels = [2; 1] /\ lastn 3 labels = [3; 2; 1] /\
   lastn 4 labels = [4; 3; 2; 1]) /\
  (labels = [1; 2; 3; 4] ->
   lastn 2 labels = [3; 4] /\ lastn 3 labels = [2; 3; 4] /\
   lastn 4 labels = [1; 2; 3; 4]).
Proof.
  intros Hl Hn Hr.
  assert (Hnd : NoDup labels /\ length labels = 4%nat).
  { destruct Hl as [<-|[<-|[]]];
      [apply four_three_two_one | apply one_two_three_four]. }
  destruct Hnd as [Hnd Hlen].
  assert (Hslice : py.slice_from (- usable_bins column) labels = lastn n labels).
  { rewrite Hn. apply slice_from_last. lia. }
  split; [exact Hslice|]. split.
  { rewrite lastn_skipn, Hlen. symmetry. apply firstn_skipn. }
  split; [apply lastn_length; lia|]. split.
  { rewrite dynamic_qcut_unfold, Hslice. reflexivity. }
  split; [apply dynamic_qcut_bins; auto; lia|].
  split; intros ->; repeat split; reflexivity.
Qed.

Lemma last_labels_survive_witness :
  py.slice_from (- usable_bins collapsed_column) [4; 3; 2; 1]
    = lastn 3 [4; 3; 2; 1] /\
  [4; 3; 2; 1] = (firstn (4 - 3) [4; 3; 2; 1] ++ lastn 3 [4; 3; 2; 1])%list /\
  length (lastn 3 [4; 3; 2; 1]) = 3%nat /\
  _dynamic_qcut collapsed_column [4; 3; 2; 1]
    = pd.cut collapsed_column (edges collapsed_column)
             (lastn 3 [4; 3; 2; 1]) true /\
  _dynamic_qcut collapsed_column [4; 3; 2; 1]
    = Ok (pd.take_nd (lastn 3 [4; 3; 2; 1])
            (pd.bin_ids collapsed_column (edges collapsed_column) true)) /\
  ([4; 3; 2; 1] = [4; 3; 2; 1] ->
   lastn 2 [4; 3; 2; 1] = [2; 1] /\ lastn 3 [4; 3; 2; 1] = [3; 2; 1] /\
   lastn 4 [4; 3; 2; 1] = [4; 3; 2; 1]) /\
  ([4; 3; 2; 1] = [1; 2; 3; 4] ->
   lastn 2 [4; 3; 2; 1] = [3; 4] /\ lastn 3 [4; 3; 2; 1] = [2; 3; 4] /\
   lastn 4 [4; 3; 2; 1] = [1; 2; 3; 4]).
Proof.
  apply (last_labels_survive collapsed_column [4; 3; 2; 1] 3).
  - simpl. auto.
  - reflexivity.
  - lia.
Defined.

(** ** Which side of a bin is closed *)

Lemma searchsorted_left_spec (bins : list quarters) (x : quarters) :
  (forall i, (i < pd.searchsorted_left bins x)%nat -> nth i bins 0 < x) /\
  ((pd.searchsorted_left bins x < length bins)%nat ->
   x <= nth (pd.searchsorted_left bins x) bins 0).
Proof.
  induction bins as [|b bs [IH1 IH2]]; simpl.
  - split; intros; lia.
  - destruct (Z.ltb_spec b x) as [Hlt|Hge]; split.
    + intros [|i] Hi; [exact Hlt | apply IH1; lia].
    + intro H. apply IH2. lia.
    + intros i Hi. lia.
    + intros _. exact Hge.
Qed.

Lemma sorted_lt_nth (bins : list quarters) :
  StronglySorted Z.lt bins ->
  forall i j, (i < j < length bins)%nat -> nth i bins 0 < nth j bins 0.
Proof.
  induction 1 as [|b bs Hs IH Hb]; intros i j Hij; simpl in *; [lia|].
  destruct i as [|i], j as [|j]; try lia.
  - rewrite Forall_forall in Hb. apply Hb, nth_In. lia.
  - apply IH. lia.
Qed.

Lemma bin_id_interval (bins : list quarters) (v : Z) :
  (2 <= length bins)%nat ->
  nth 0 bins 0 <= to_quarters v ->
  (exists top, In top bins /\ to_quarters v <= top) ->
  let j := pd.bin_id bins true v in
  nth (j - 1) bins 0 < to_quarters v <= nth j bins 0 \/
  (j = 1%nat /\ to_quarters v = nth 0 bins 0).
Proof.
  intros Hlen Hlow Htop j.
  pose proof (bin_id_range bins v Hlen Hlow Htop) as Hr. fold j in Hr.
  subst j. unfold pd.bin_id in *. simpl andb in *.
  destruct (Z.eqb_spec (to_quarters v) (nth 0 bins 0)) as [Heq|Hne].
  - right. split; [|exact Heq].
    destruct (Nat.eqb_spec 1 (length bins)); simpl; [lia | reflexivity].
  - left. destruct (searchsorted_left_spec bins (to_quarters v)) as [H1 H2].
    destruct (_ || _); [lia|]. split; [apply H1; lia | apply H2; lia].
Qed.

Lemma bin_id_edge (bins : list quarters) (v : Z) (j : nat) :
  StronglySorted Z.lt bins -> (0 < j < length bins - 1)%nat ->
  to_quarters v = nth j bins 0 -> pd.bin_id bins true v = j.
Proof.
  intros Hs Hj Hv. unfold pd.bin_id. simpl andb.
  pose proof (sorted_lt_nth bins Hs 0 j ltac:(lia)) as Hlt.
  destruct (Z.eqb_spec (to_quarters v) (nth 0 bins 0)); [lia|].
  rewrite Hv, (searchsorted_left_edge bins Hs j) by lia.
  destruct (Nat.eqb_spec j (length bins)); [lia|].
  destruct (Nat.eqb_spec j 0); [lia | reflexivity].
Qed.

Lemma bin_id_lowest (bins : list quarters) (v : Z) :
  (2 <= length bins)%nat -> to_quarters v = nth 0 bins 0 ->
  pd.bin_id bins true v = 1%nat.
Proof.
  intros Hlen Hv. unfold pd.bin_id. simpl andb.
  rewrite Hv, Z.eqb_refl.
  destruct (Nat.eqb_spec 1 (length bins)); [lia | reflexivity].
Qed.

Lemma column_minimum (column : list Z) (v : Z) :
  In v column -> (forall w, In w column -> v <= w) ->
  to_quarters v = nth 0 (edges column) 0.
Proof.
  intros Hv Hmin.
  assert (Hne : column <> []) by (intros ->; contradiction).
  rewrite (edges_first column Hne). f_equal.
  pose proof (sorted_range _ (sort_sorted column) (sort_nonempty column Hne) v
                (proj2 (sort_in column v) Hv)) as [Hlo _].
  assert (Hin : In (nth 0 (ZSort.sort column) 0) column).
  { apply sort_in, nth_In.
    destruct (ZSort.sort column) eqn:E; simpl; [|lia].
    exfalso. apply (sort_nonempty column Hne E). }
  specialize (Hmin _ Hin). lia.
Qed.

Lemma first_kept_ascending (n : nat) :
  (1 <= n <= 4)%nat ->
  hd_error (lastn n [1; 2; 3; 4]) = Some (5 - Z.of_nat n) /\
  forall l, In l (lastn n [1; 2; 3; 4]) -> 5 - Z.of_nat n <= l.
Proof.
  intro H.
  destruct n as [|[|[|[|[|n]]]]]; try lia;
    (split; [reflexivity | simpl; intros l Hl; lia]).
Qed.

Lemma first_kept_descending (n : nat) :
  (1 <= n <= 4)%nat ->
  hd_error (lastn n [4; 3; 2; 1]) = Some (Z.of_nat n) /\
  forall l, In l (lastn n [4; 3; 2; 1]) -> l <= Z.of_nat n.
Proof.
  intro H.
  destruct n as [|[|[|[|[|n]]]]]; try lia;
    (split; [reflexivity | simpl; intros l Hl; lia]).
Qed.

(** C10, as stated, fails for the ordering of Recency: the column below
    keeps three usable bins and the labels 3, 2, 1; its minimum, the value
    1, gets the label 3, the highest of the surviving labels and not the
    lowest, which is 1. *)
Lemma minimum_gets_highest_of_descending :
  _dynamic_qcut [1; 1; 1; 2; 3; 3; 9] [4; 3; 2; 1]
    = Ok [Some 3; Some 3; Some 3; Some 3; Some 2; Some 2; Some 1] /\
  nth_error [1; 1; 1; 2; 3; 3; 9] 0 = Some 1 /\
  (forall w, In w [1; 1; 1; 2; 3; 3; 9] -> 1 <= w) /\
  lastn (Z.to_nat (usable_bins [1; 1; 1; 2; 3; 3; 9])) [4; 3; 2; 1] = [3; 2; 1] /\
  nth_error [Some 3; Some 3; Some 3; Some 3; Some 2; Some 2; Some 1] 0
    = Some (Some 3) /\
  In 1 [3; 2; 1] /\ 1 < 3.
Proof.
  split; [reflexivity|]. split; [reflexivity|]. split.
  - intros w Hw. simpl in Hw. lia.
  - split; [reflexivity|]. split; [reflexivity|]. split; [simpl; auto | lia].
Qed.

(** C10, amended.  In a successful call of [_dynamic_qcut], with [n] usable
    bins and the last [n] labels kept: every value lies in a bin that is
    open on the left and closed on the right, or it is the lowest edge and
    lies in the first bin; a value equal to an interior edge gets the label
    of the earlier of the two bins that meet there; and the minimum of the
    column gets the label of the first bin, that is the first label kept:
    with the ordering [1; 2; 3; 4] this is [5 - n], the lowest of the labels
    kept, and with the ordering [4; 3; 2; 1] it is [n], the highest of
    them. *)
Theorem bins_are_right_closed (column labels : list Z) (ls : list (option Z)) :
  In labels [[4; 3; 2; 1]; [1; 2; 3; 4]] ->
  _dynamic_qcut column labels = Ok ls ->
  let bins := edges column in
  let n := (length bins - 1)%nat in
  let kept := lastn n labels in
  (1 <= n)%nat /\ length kept = n /\
  (forall i v, nth_error column i = Some v ->
     exists j label,
       (1 <= j <= n)%nat /\
       nth_error kept (j - 1) = Some label /\
       nth_error ls i = Some (Some label) /\
       (nth (j - 1) bins 0 < to_quarters v <= nth j bins 0 \/
        (j = 1%nat /\ to_quarters v = nth 0 bins 0))) /\
  (forall i v j, nth_error column i = Some v ->
     (0 < j < n)%nat -> to_quarters v = nth j bins 0 ->
     nth_error ls i = Some (nth_error kept (j - 1))) /\
  (forall i v, nth_error column i = Some v ->
     (forall w, In w column -> v <= w) ->
     nth_error ls i = Some (hd_error kept)) /\
  (labels = [1; 2; 3; 4] ->
   hd_error kept = Some (5 - Z.of_nat n) /\
   forall l, In l kept -> 5 - Z.of_nat n <= l) /\
  (labels = [4; 3; 2; 1] ->
   hd_error kept = Some (Z.of_nat n) /\
   forall l, In l kept -> l <= Z.of_nat n).
Proof.
  intros Hl Hok bins n kept.
  assert (Hnd : NoDup labels /\ length labels = 4%nat).
  { destruct Hl as [<-|[<-|[]]];
      [apply four_three_two_one | apply one_two_three_four]. }
  destruct Hnd as [Hnd Hlen].
  destruct (dynamic_qcut_labelled _ _ _ Hnd Hlen Hok) as (Hn & -> & _).
  pose proof (edges_length column) as Hel. fold bins in Hel.
  assert (En : Z.to_nat (usable_bins column) = n).
  { unfold usable_bins. fold bins. lia. }
  rewrite En. fold bins. fold kept.
  assert (Hn1 : (1 <= n)%nat) by lia.
  assert (Hk : length kept = n) by (apply lastn_length; lia).
  assert (Hlen2 : (2 <= length bins)%nat) by lia.
  assert (Hnth : forall i v, nth_error column i = Some v ->
            nth_error (pd.take_nd kept (pd.bin_ids column bins true)) i =
            Some (match pd.bin_id bins true v with
                  | O => None
                  | S j => nth_error kept j
                  end)).
  { intros i v Hv. unfold pd.take_nd, pd.bin_ids. rewrite map_map.
    exact (map_nth_error (fun x => match pd.bin_id bins true x with
                                   | O => None
                                   | S j => nth_error kept j
                                   end) i column Hv). }
  split; [exact Hn1|]. split; [exact Hk|]. split; [|split; [|split; [|split]]].
  - intros i v Hv. apply nth_error_In in Hv as Hin.
    destruct (column_in_range column v Hin) as [Hlow Htop].
    pose proof (bin_id_range bins v Hlen2 Hlow Htop) as Hr.
    pose proof (bin_id_interval bins v Hlen2 Hlow Htop) as Hint.
    simpl in Hint. rewrite (Hnth i v Hv).
    destruct (pd.bin_id bins true v) as [|j]; [lia|].
    destruct (nth_error kept j) as [label|] eqn:Hlab.
    + exists (S j), label. simpl. rewrite Nat.sub_0_r.
      simpl in Hint. rewrite Nat.sub_0_r in Hint.
      repeat split; auto; lia.
    + apply nth_error_None in Hlab. lia.
  - intros i v j Hv Hj Hedge. rewrite (Hnth i v Hv).
    rewrite (bin_id_edge bins v j (edges_sorted column) ltac:(lia) Hedge).
    destruct j as [|j]; [lia|]. simpl. rewrite Nat.sub_0_r. reflexivity.
  - intros i v Hv Hmin. apply nth_error_In in Hv as Hin.
    rewrite (Hnth i v Hv).
    rewrite (bin_id_lowest bins v Hlen2 (column_minimum column v Hin Hmin)).
    destruct kept; reflexivity.
  - intros ->. apply first_kept_ascending. lia.
  - intros ->. apply first_kept_descending. lia.
Qed.

Lemma bins_are_right_closed_witness :
  _dynamic_qcut boundary_column [4; 3; 2; 1]
    = Ok [Some 4; Some 4; Some 3; Some 2; Some 1] /\
  nth_error [Some 4; Some 4; Some 3; Some 2; Some 1] 1
    = Some (nth_error (lastn 4 [4; 3; 2; 1]) 0) /\
  nth_error [Some 4; Some 4; Some 3; Some 2; Some 1] 0
    = Some (hd_error (lastn 4 [4; 3; 2; 1])).
Proof.
  assert (Hl : In [4; 3; 2; 1] [[4; 3; 2; 1]; [1; 2; 3; 4]]) by (left; reflexivity).
  assert (Hok : _dynamic_qcut boundary_column [4; 3; 2; 1]
                = Ok [Some 4; Some 4; Some 3; Some 2; Some 1]) by reflexivity.
  destruct (bins_are_right_closed boundary_column [4; 3; 2; 1] _ Hl Hok)
    as (_ & _ & _ & Hedge & Hmin & _).
  split; [exact Hok|]. split.
  - apply (Hedge 1%nat 2 1%nat); [reflexivity | vm_compute; lia | reflexivity].
  - apply (Hmin 0%nat 1); [reflexivity|].
    intros w Hw. simpl in Hw. lia.
Defined.

(** ** Classifier *)

Ltac q_cases :=
  repeat match goal with
         | |- context [Qle_bool ?a ?b] =>
             let H := fresh "H" in
             destruct (Qle_bool a b) eqn:H;
             [apply Qle_bool_iff in H
             | assert (~ (a <= b)%Q)
                 by (rewrite <- Qle_bool_iff; congruence); clear H]
         end.

Lemma get_rfm_status_spec (score avg std : Q) :
  (0 <= std)%Q ->
  (_get_rfm_status score avg std = "Platinum"%string
     <-> (avg + std <= score)%Q) /\
  (_get_rfm_status score avg std = "Altın"%string
     <-> (avg <= score /\ score < avg + std)%Q) /\
  (_get_rfm_status score avg std = "Gümüş"%string
     <-> (avg - std <= score /\ score < avg)%Q) /\
  (_get_rfm_status score avg std = "Bronz"%string
     <-> (score < avg - std)%Q).
Proof.
  intro Hstd. unfold _get_rfm_status, Qge_bool, Qgt_bool.
  q_cases; simpl; repeat split; intros; try discriminate; try lra.
Qed.

Lemma get_rfm_status_tier (score avg std : Q) :
  In (_get_rfm_status score avg std)
     ["Platinum"; "Altın"; "Gümüş"; "Bronz"]%string.
Proof.
  unfold _get_rfm_status.
  repeat match goal with
         | |- context [if ?b then _ else _] => destruct b
         end; simpl; auto.
Qed.

Lemma tiers_distinct : NoDup ["Platinum"; "Altın"; "Gümüş"; "Bronz"]%string.
Proof.
  repeat constructor; simpl; intuition discriminate.
Qed.

Lemma valued_row_inv (std : list Z -> Q) (self : RFM) (row : ValuedRow) :
  In row (calculate_customer_value std self) ->
  In (base row) (rfm self) /\
  Status row = _get_rfm_status (inject_Z (RFM_Score (base row)))
                 (pd.mean (map RFM_Score (rfm self)))
                 (std (map RFM_Score (rfm self))) /\
  Description row = _get_rfm_description (Status row).
Proof.
  unfold calculate_customer_value. rewrite in_map_iff.
  intros (r & <- & Hr). simpl. auto.
Qed.

(** C2.  With [avg] the mean and [sd] the standard deviation of the scores
    of the frame, [sd] not negative, every customer is Platinum exactly when
    its score is at least [avg + sd], Altın (Gold) exactly when it is in
    [avg, avg + sd), Gümüş (Silver) exactly when it is in [avg - sd, avg),
    and Bronz (Bronze) exactly when it is below [avg - sd]; the status is
    one of these four distinct tiers. *)
Theorem status_thresholds (std : list Z -> Q) (self : RFM) (row : ValuedRow) :
  let scores := map RFM_Score (rfm self) in
  let avg := pd.mean scores in
  let sd := std scores in
  let score := inject_Z (RFM_Score (base row)) in
  (0 <= sd)%Q ->
  In row (calculate_customer_value std self) ->
  (Status row = "Platinum"%string <-> (avg + sd <= score)%Q) /\
  (Status row = "Altın"%string <-> (avg <= score /\ score < avg + sd)%Q) /\
  (Status row = "Gümüş"%string <-> (avg - sd <= score /\ score < avg)%Q) /\
  (Status row = "Bronz"%string <-> (score < avg - sd)%Q) /\
  In (Status row) ["Platinum"; "Altın"; "Gümüş"; "Bronz"]%string /\
  NoDup ["Platinum"; "Altın"; "Gümüş"; "Bronz"]%string.
Proof.
  intros scores avg sd score Hsd Hrow.
  destruct (valued_row_inv _ _ _ Hrow) as (_ & -> & _).
  fold scores avg sd score.
  destruct (get_rfm_status_spec score avg sd Hsd) as (H1 & H2 & H3 & H4).
  split; [exact H1|]. split; [exact H2|]. split; [exact H3|].
  split; [exact H4|]. split; [apply get_rfm_status_tier | apply tiers_distinct].
Qed.

Lemma status_thresholds_witness :
  exists row,
    In row (calculate_customer_value sample_std sample_object) /\
    RFM_Score (base row) = 9 /\
    (Status row = "Platinum"%string <->
     (pd.mean (map RFM_Score (rfm sample_object))
      + sample_std (map RFM_Score (rfm sample_object)) <= inject_Z 9)%Q).
Proof.
  set (rows := calculate_customer_value sample_std sample_object).
  destruct (nth_error rows 4) as [row|] eqn:Hrow; [|vm_compute in Hrow; discriminate].
  assert (Hin : In row rows) by (eapply nth_error_In; exact Hrow).
  assert (Hscore : RFM_Score (base row) = 9).
  { vm_compute in Hrow. injection Hrow as <-. reflexivity. }
  exists row. split; [exact Hin|]. split; [exact Hscore|].
  rewrite <- Hscore.
  apply (status_thresholds sample_std sample_object row).
  - apply Qle_bool_iff. reflexivity.
  - exact Hin.
Defined.

Lemma get_rfm_description_defined (score avg std : Q) :
  In (_get_rfm_description (_get_rfm_status score avg std)) (map snd descriptions) /\
  _get_rfm_description (_get_rfm_status score avg std) <> "Tanımsız"%string.
Proof.
  pose proof (get_rfm_status_tier score avg std) as H. simpl in H.
  destruct H as [<-|[<-|[<-|[<-|[]]]]]; split;
    try (vm_compute; intuition; fail); vm_compute; discriminate.
Qed.

(** C8.  Whatever the score, the mean and the deviation, the status that
    [_get_rfm_status] returns is a key of the dictionary, so
    [_get_rfm_description] returns one of the four tier descriptions and not
    the default; in the valued frame no customer has the default
    description. *)
Theorem description_is_total :
  (forall score avg std : Q,
     In (_get_rfm_status score avg std) (map fst descriptions) /\
     In (_get_rfm_description (_get_rfm_status score avg std))
        (map snd descriptions) /\
     _get_rfm_description (_get_rfm_status score avg std) <> "Tanımsız"%string) /\
  (forall (std : list Z -> Q) (self : RFM) (row : ValuedRow),
     In row (calculate_customer_value std self) ->
     In (Description row) (map snd descriptions) /\
     Description row <> "Tanımsız"%string) /\
  length descriptions = 4%nat /\
  ~ In "Tanımsız"%string (map snd descriptions).
Proof.
  split; [|split; [|split]].
  - intros score avg std. split; [apply get_rfm_status_tier|].
    apply get_rfm_description_defined.
  - intros std self row Hrow.
    destruct (valued_row_inv _ _ _ Hrow) as (_ & Hs & ->). rewrite Hs.
    apply get_rfm_description_defined.
  - reflexivity.
  - simpl. intuition discriminate.
Qed.

(** ** Independence of the row order *)

Lemma sorted_lt_ext (l1 : list Z) :
  StronglySorted Z.lt l1 ->
  forall l2, StronglySorted Z.lt l2 ->
        (forall x, In x l1 <-> In x l2) -> l1 = l2.
Proof.
  induction 1 as [|a l1 Hs1 IH Ha]; intros l2 Hs2 Hext.
  - destruct l2 as [|b l2]; auto. destruct (proj2 (Hext b)); simpl; auto.
  - destruct Hs2 as [|b l2 Hs2 Hb].
    + destruct (proj1 (Hext a)); simpl; auto.
    + rewrite Forall_forall in Ha, Hb.
      assert (Hab : a = b).
      { destruct (proj1 (Hext a) (or_introl eq_refl)) as [Hba|Hin]; auto.
        destruct (proj2 (Hext b) (or_introl eq_refl)) as [Hba|Hin']; auto.
        specialize (Ha _ Hin'). specialize (Hb _ Hin). lia. }
      subst b. f_equal. apply IH; auto.
      intro x. split; intro Hx.
      * destruct (proj1 (Hext x) (or_intror Hx)) as [Hax|]; auto.
        specialize (Ha _ Hx). lia.
      * destruct (proj2 (Hext x) (or_intror Hx)) as [Hax|]; auto.
        specialize (Hb _ Hx). lia.
Qed.

Lemma sorted_le_NoDup_lt (l : list Z) :
  StronglySorted Z.le l -> NoDup l -> StronglySorted Z.lt l.
Proof.
  induction 1 as [|a l Hs IH Ha]; intro Hnd; constructor;
    inversion Hnd as [|? ? Hnotin Hnd']; subst; auto.
  rewrite Forall_forall in *. intros x Hx.
  specialize (Ha x Hx). assert (x <> a) by congruence. lia.
Qed.

Lemma group_keys_sorted (table : DataFrame) : StronglySorted Z.lt (group_keys table).
Proof.
  apply sorted_le_NoDup_lt; [apply sort_sorted | apply group_keys_NoDup].
Qed.

Lemma group_keys_perm (t1 t2 : DataFrame) :
  Permutation t1 t2 -> group_keys t1 = group_keys t2.
Proof.
  intro Hp. apply sorted_lt_ext; try apply group_keys_sorted.
  intro x. rewrite !group_keys_in.
  split; apply Permutation_in; [|apply Permutation_sym];
    apply Permutation_map, Hp.
Qed.

Lemma filter_perm {A : Type} (p : A -> bool) (l1 l2 : list A) :
  Permutation l1 l2 -> Permutation (filter p l1) (filter p l2).
Proof.
  induction 1 as [|x l1 l2 Hp IH|x y l|l1 l2 l3 H12 IH12 H23 IH23]; simpl.
  - constructor.
  - destruct (p x); auto.
  - destruct (p x), (p y); auto. constructor.
  - eapply perm_trans; eauto.
Qed.

Lemma is_maximum_perm (m : Z) (l1 l2 : list Z) :
  Permutation l1 l2 -> is_maximum m l1 -> is_maximum m l2.
Proof.
  intros Hp [Hin Hall]. split.
  - eapply Permutation_in; eauto.
  - eapply Permutation_Forall; eauto.
Qed.

Lemma max_perm (l1 l2 : list Z) : Permutation l1 l2 -> pd.max l1 = pd.max l2.
Proof.
  intro Hp. destruct l1 as [|x xs].
  - apply Permutation_nil in Hp. subst. reflexivity.
  - assert (H2 : l2 <> []).
    { intros ->. apply Permutation_sym, Permutation_nil in Hp. discriminate. }
    apply (is_maximum_unique l2).
    + eapply is_maximum_perm; [exact Hp | apply max_spec; discriminate].
    + apply max_spec, H2.
Qed.

Lemma total_perm (l1 l2 : list Z) : Permutation l1 l2 -> total l1 = total l2.
Proof.
  unfold total.
  induction 1 as [| | |l1 l2 l3 H12 IH12 H23 IH23]; simpl; try lia.
Qed.

Lemma agg_perm (latest key : Z) (rows1 rows2 : DataFrame) :
  Permutation rows1 rows2 -> agg latest (key, rows1) = agg latest (key, rows2).
Proof.
  intro Hp. unfold agg, pd.count, pd.sum_of.
  rewrite (max_perm _ _ (Permutation_map IslemTarih Hp)).
  rewrite !sum_total, (total_perm _ _ (Permutation_map IslemTutar Hp)).
  rewrite (Permutation_length (Permutation_map IslemID Hp)).
  reflexivity.
Qed.

Lemma aggregate_perm (t1 t2 : DataFrame) (latest : Z) :
  Permutation t1 t2 -> aggregate t1 latest = aggregate t2 latest.
Proof.
  intro Hp. unfold aggregate, groupby.
  rewrite (group_keys_perm _ _ Hp), !map_map.
  apply map_ext. intro key. apply agg_perm, filter_perm, Hp.
Qed.

(** C9.  The valued frame is a function of the transactions alone: two
    runs on the same rows, in the same or in another order, end alike, with
    the same error or with the same frame, hence with the same Status and
    Description for every customer. *)
Theorem runs_agree (std : list Z -> Q) (table1 table2 : DataFrame) :
  Permutation table1 table2 ->
  main std table1 = main std table2 /\
  forall rows1 rows2,
    main std table1 = Ok rows1 -> main std table2 = Ok rows2 ->
    map (fun row => (index (metrics (base row)), Status row, Description row)) rows1
    = map (fun row => (index (metrics (base row)), Status row, Description row)) rows2.
Proof.
  intro Hp.
  assert (Hmain : main std table1 = main std table2).
  { unfold main, __init__, _calculate_rfm.
    rewrite (max_perm _ _ (Permutation_map IslemTarih Hp)).
    rewrite (aggregate_perm _ _ _ Hp).
    destruct (_dynamic_qcut (map Recency _) _) as [rs|]; [|reflexivity].
    destruct (_dynamic_qcut (map Frequency _) _) as [fs|]; [|reflexivity].
    destruct (_dynamic_qcut (map Monetary _) _) as [ms|]; reflexivity. }
  split; [exact Hmain|].
  intros rows1 rows2 H1 H2. rewrite Hmain, H2 in H1.
  injection H1 as <-. reflexivity.
Qed.

Lemma runs_agree_witness :
  main sample_std sample_table = main sample_std (rev sample_table) /\
  forall rows1 rows2,
    main sample_std sample_table = Ok rows1 ->
    main sample_std (rev sample_table) = Ok rows2 ->
    map (fun row => (index (metrics (base row)), Status row, Description row)) rows1
    = map (fun row => (index (metrics (base row)), Status row, Description row)) rows2.
Proof.
  apply (runs_agree sample_std sample_table (rev sample_table)).
  apply Permutation_rev.
Defined.

(** * Further properties of the code *)

(** ** The aggregated frame *)

Lemma total_weighted_indicator (keys : list Z) (a c : Z) :
  NoDup keys -> In a keys ->
  total (map (fun k => if a =? k then c else 0) keys) = c.
Proof.
  unfold total. induction 1 as [|k keys Hk Hnd IH]; simpl; [contradiction|].
  assert (Hout : forall l, ~ In a l ->
            fold_right Z.add 0 (map (fun k => if a =? k then c else 0) l) = 0).
  { induction l as [|x l IHl]; simpl; auto. intro Hn.
    destruct (Z.eqb_spec a x); [subst; tauto|]. rewrite IHl; tauto. }
  intros [->|Hin].
  - rewrite Z.eqb_refl, Hout; auto. lia.
  - destruct (Z.eqb_spec a k); [subst; contradiction|]. rewrite IH; auto.
Qed.

Lemma monetary_partition (keys : list Z) (table : DataFrame) :
  NoDup keys -> (forall row, In row table -> In (id row) keys) ->
  total (map (fun key => pd.sum (map IslemTutar (group_rows table key))) keys)
  = total (map IslemTutar table).
Proof.
  intros Hnd. unfold group_rows.
  induction table as [|row table IH]; intro Hall.
  - clear. unfold total. induction keys as [|k keys IHk]; simpl; auto.
  - rewrite (map_ext _ (fun key =>
       pd.sum (map IslemTutar (filter (fun r => id r =? key) table))
       + (if id row =? key then IslemTutar row else 0))).
    + rewrite total_add, IH, total_weighted_indicator; auto with datatypes.
      simpl. unfold total. lia.
    + intro key. simpl filter. rewrite !sum_total.
      destruct (id row =? key); simpl; unfold total; simpl; lia.
Qed.

Lemma wrap64_small (z : Z) : - 2 ^ 63 <= z < 2 ^ 63 -> wrap64 z = z.
Proof.
  intro H. unfold wrap64. rewrite Z.mod_small; lia.
Qed.

Lemma wrap64_shift (z q : Z) : wrap64 (z - 2 ^ 64 * q) = wrap64 z.
Proof.
  unfold wrap64. f_equal.
  replace (z - 2 ^ 64 * q + 2 ^ 63) with (z + 2 ^ 63 + (- q) * 2 ^ 64) by lia.
  apply Z_mod_plus_full.
Qed.

Lemma wrap64_decomp (z : Z) : exists q, wrap64 z = z - 2 ^ 64 * q.
Proof.
  exists ((z + 2 ^ 63) / 2 ^ 64). unfold wrap64.
  pose proof (Z.div_mod (z + 2 ^ 63) (2 ^ 64) ltac:(lia)). lia.
Qed.

Lemma total_wrap (l : list Z) :
  wrap64 (total (map wrap64 l)) = wrap64 (total l).
Proof.
  unfold total. induction l as [|x l IH]; [reflexivity|].
  simpl fold_right.
  destruct (wrap64_decomp x) as [q Hq].
  destruct (wrap64_decomp (fold_right Z.add 0 (map wrap64 l))) as [q1 H1].
  destruct (wrap64_decomp (fold_right Z.add 0 l)) as [q2 H2].
  rewrite IH in H1. rewrite Hq.
  assert (E : fold_right Z.add 0 (map wrap64 l)
              = fold_right Z.add 0 l - 2 ^ 64 * (q2 - q1)) by lia.
  rewrite E.
  replace (x - 2 ^ 64 * q + (fold_right Z.add 0 l - 2 ^ 64 * (q2 - q1)))
    with (x + fold_right Z.add 0 l - 2 ^ 64 * (q + q2 - q1)) by lia.
  apply wrap64_shift.
Qed.

Lemma group_total_bound (p : Transaction -> bool) (table : DataFrame) :
  Z.abs (total (map IslemTutar (filter p table)))
  <= total (map (fun t => Z.abs (IslemTutar t)) table).
Proof.
  unfold total. induction table as [|t table IH]; simpl; [lia|].
  destruct (p t); simpl; lia.
Qed.

(** X1.  For an int64 amounts column, the Monetary values of the aggregated
    frame and the amounts of the table have the same sum on 64 bits; when
    the absolute values of the amounts add up to less than 2^63, no sum
    wraps around and the Monetary values add up exactly to the total of the
    amounts, in the aggregated frame and in the frame of every constructed
    object. *)
Theorem monetary_sum_is_total_amount (table : DataFrame) :
  (forall latest : Z,
     wrap64 (total (map Monetary (aggregate table latest)))
     = wrap64 (total (map IslemTutar table))) /\
  (total (map (fun t => Z.abs (IslemTutar t)) table) < 2 ^ 63 ->
   (forall latest : Z,
      total (map Monetary (aggregate table latest))
      = total (map IslemTutar table)) /\
   (forall self : RFM,
      __init__ table = Ok self ->
      total (map (fun row => Monetary (metrics row)) (rfm self))
      = total (map IslemTutar table))).
Proof.
  assert (Hpart : total (map (fun key => pd.sum (map IslemTutar (group_rows table key)))
                            (group_keys table))
                  = total (map IslemTutar table)).
  { apply monetary_partition.
    - apply group_keys_NoDup.
    - intros row Hrow. apply group_keys_in, in_map, Hrow. }
  assert (Hcol : forall latest,
            map Monetary (aggregate table latest)
            = map wrap64 (map (fun key => pd.sum (map IslemTutar (group_rows table key)))
                              (group_keys table))).
  { intro latest. unfold aggregate, groupby. rewrite !map_map. reflexivity. }
  split.
  - intro latest. rewrite Hcol, total_wrap, Hpart. reflexivity.
  - intro Hsmall.
    assert (Hagg : forall latest,
              total (map Monetary (aggregate table latest))
              = total (map IslemTutar table)).
    { intro latest. rewrite Hcol, map_map, <- Hpart. f_equal.
      apply map_ext. intro key. apply wrap64_small.
      rewrite sum_total.
      pose proof (group_total_bound (fun row => id row =? key) table) as Hb.
      unfold group_rows. lia. }
    split; [exact Hagg|].
    intros self H. destruct (init_inv _ _ H) as (_ & _ & Hrfm).
    rewrite <- (map_map metrics Monetary), (calculate_rfm_metrics _ _ _ Hrfm).
    apply Hagg.
Qed.

Lemma monetary_sum_is_total_amount_witness :
  total (map Monetary (aggregate sample_table 0)) = 150 /\
  __init__ sample_table = Ok sample_object /\
  total (map (fun row => Monetary (metrics row)) (rfm sample_object)) = 150.
Proof.
  destruct (proj2 (monetary_sum_is_total_amount sample_table)) as [Hagg Hobj].
  - vm_compute. reflexivity.
  - split; [exact (Hagg 0)|].
    assert (Hinit : __init__ sample_table = Ok sample_object) by reflexivity.
    split; [exact Hinit | exact (Hobj sample_object Hinit)].
Defined.

(** X2.  The aggregated frame has one row per customer: its index is
    strictly increasing, hence free of duplicates, and holds exactly the
    identifiers that occur in the table; the frame of a constructed object
    has the same index. *)
Theorem one_row_per_customer (table : DataFrame) (latest : Z) :
  StronglySorted Z.lt (map index (aggregate table latest)) /\
  NoDup (map index (aggregate table latest)) /\
  (forall key, In key (map index (aggregate table latest)) <->
               exists row, In row table /\ id row = key) /\
  (forall self, __init__ table = Ok self ->
     map (fun row => index (metrics row)) (rfm self)
     = map index (aggregate table latest)).
Proof.
  rewrite aggregate_index.
  split; [apply group_keys_sorted|]. split; [apply group_keys_NoDup|]. split.
  - intro key. rewrite group_keys_in, in_map_iff.
    split; intros (row & H1 & H2); exists row; auto.
  - intros self H. destruct (init_inv _ _ H) as (_ & _ & Hrfm).
    rewrite <- (map_map metrics index), (calculate_rfm_metrics _ _ _ Hrfm).
    apply aggregate_index.
Qed.

Lemma one_row_per_customer_witness :
  map index (aggregate sample_table 0) = [1; 2; 3; 4; 5] /\
  map (fun row => index (metrics row)) (rfm sample_object)
  = map index (aggregate sample_table 0).
Proof.
  split; [reflexivity|].
  apply (proj2 (proj2 (proj2 (one_row_per_customer sample_table 0)))).
  reflexivity.
Defined.

(** X3.  Every customer of the aggregated frame has at least one
    transaction: Frequency is the number of rows of the table with that
    identifier, and it is at least 1. *)
Theorem frequency_is_positive (table : DataFrame) (latest : Z) (row : Metrics) :
  In row (aggregate table latest) ->
  Frequency row
    = Z.of_nat (length (filter (fun t => id t =? index row) table)) /\
  1 <= Frequency row.
Proof.
  intro Hrow. apply aggregate_in in Hrow. destruct Hrow as [Hkey Hrow].
  pose proof (group_rows_nonempty _ _ Hkey) as Hne.
  assert (HF : Frequency row
               = Z.of_nat (length (group_rows table (index row)))).
  { rewrite Hrow at 1. simpl. unfold pd.count. rewrite length_map. reflexivity. }
  split; [exact HF|]. rewrite HF.
  destruct (group_rows table (index row)); [congruence | simpl; lia].
Qed.

Lemma frequency_is_positive_witness :
  Frequency (mkMetrics 4 3 4 40)
    = Z.of_nat (length (filter (fun t => id t =? 4) sample_table)) /\
  1 <= Frequency (mkMetrics 4 3 4 40).
Proof.
  apply (frequency_is_positive sample_table (pd.max (map IslemTarih sample_table))).
  vm_compute. tauto.
Defined.

(** X4.  In a table that is not empty, the customer of a transaction that
    carries the latest date has Recency 0: the smallest Recency of the
    aggregated frame is 0. *)
Theorem latest_customer_has_recency_zero (table : DataFrame) (t : Transaction) :
  In t table ->
  IslemTarih t = pd.max (map IslemTarih table) ->
  exists row,
    In row (aggregate table (pd.max (map IslemTarih table))) /\
    index row = id t /\ Recency row = 0.
Proof.
  intros Ht Hlatest.
  set (latest := pd.max (map IslemTarih table)) in *.
  assert (Hkey : In (id t) (group_keys table)) by (apply group_keys_in, in_map, Ht).
  exists (agg latest (id t, group_rows table (id t))).
  split; [|split; [reflexivity|]].
  - apply aggregate_in. simpl. auto.
  - simpl.
    assert (Hg : In t (group_rows table (id t))) by (apply group_rows_in; auto).
    assert (Hne : map IslemTarih (group_rows table (id t)) <> []).
    { destruct (group_rows table (id t)); [contradiction | discriminate]. }
    destruct (max_spec _ Hne) as [Hin Hall].
    assert (Htab : map IslemTarih table <> []).
    { destruct table; [contradiction | discriminate]. }
    destruct (max_spec _ Htab) as [_ Hall'].
    rewrite Forall_forall in Hall, Hall'.
    assert (H1 : IslemTarih t <= pd.max (map IslemTarih (group_rows table (id t)))).
    { apply Hall, in_map, Hg. }
    assert (H2 : pd.max (map IslemTarih (group_rows table (id t))) <= latest).
    { apply Hall'. apply in_map_iff in Hin. destruct Hin as (u & <- & Hu).
      apply in_map. apply group_rows_in in Hu. tauto. }
    replace (latest - pd.max (map IslemTarih (group_rows table (id t)))) with 0
      by lia.
    reflexivity.
Qed.

Lemma latest_customer_has_recency_zero_witness :
  exists row,
    In row (aggregate sample_table (pd.max (map IslemTarih sample_table))) /\
    index row = 1 /\ Recency row = 0.
Proof.
  apply (latest_customer_has_recency_zero sample_table
           (mkTransaction 1 101 (day 10) 10)).
  - left. reflexivity.
  - reflexivity.
Defined.

(** ** Success and failure of the binning *)

Lemma column_extremes (column : list Z) :
  column <> [] ->
  In (nth 0 (ZSort.sort column) 0) column /\
  In (nth (length column - 1) (ZSort.sort column) 0) column.
Proof.
  intro Hne. pose proof (sort_length column) as Hl.
  assert (Hpos : (1 <= length column)%nat).
  { destruct column; simpl; [congruence | lia]. }
  split; apply sort_in, nth_In; lia.
Qed.

Lemma tied_dec (column : list Z) : usable_bins column = 0 \/ varied column.
Proof.
  pose proof (usable_bins_range column) as Hr.
  destruct (Z.eq_dec (usable_bins column) 0) as [H0|Hn]; [left; exact H0|].
  right. destruct column as [|x xs] eqn:E; [vm_compute in Hn; congruence|].
  rewrite <- E in *. assert (Hne : column <> []) by (subst; discriminate).
  destruct (column_extremes column Hne) as [Hmin Hmax].
  exists (nth 0 (ZSort.sort column) 0),
         (nth (length column - 1) (ZSort.sort column) 0).
  split; [exact Hmin|]. split; [exact Hmax|].
  intro Heq. apply Hn. apply no_bin_iff_tied. intros v w Hv Hw.
  pose proof (sorted_range _ (sort_sorted column) (sort_nonempty column Hne) v
                (proj2 (sort_in column v) Hv)) as Rv.
  pose proof (sorted_range _ (sort_sorted column) (sort_nonempty column Hne) w
                (proj2 (sort_in column w) Hw)) as Rw.
  rewrite sort_length in Rv, Rw. lia.
Qed.

Lemma varied_bins (column : list Z) : varied column <-> 1 <= usable_bins column.
Proof.
  pose proof (usable_bins_range column) as Hr. split.
  - intros (v & w & Hv & Hw & Hne).
    destruct (Z.eq_dec (usable_bins column) 0) as [H0|]; [|lia].
    exfalso. apply Hne. exact (proj1 (no_bin_iff_tied column) H0 v w Hv Hw).
  - intro H. destruct (tied_dec column); [lia | assumption].
Qed.

Lemma dynamic_qcut_dichotomy (column labels : list Z) :
  NoDup labels -> length labels = 4%nat ->
  (varied column /\ exists ls, _dynamic_qcut column labels = Ok ls) \/
  (tied column /\ _dynamic_qcut column labels = Raise label_count_error).
Proof.
  intros Hnd Hlen. pose proof (usable_bins_range column) as Hr.
  destruct (tied_dec column) as [H0|Hv].
  - right. split; [exact (proj1 (no_bin_iff_tied column) H0)|].
    apply dynamic_qcut_no_bin; auto. destruct labels; [discriminate | congruence].
  - left. split; [exact Hv|]. apply varied_bins in Hv.
    rewrite (dynamic_qcut_bins column labels (Z.to_nat (usable_bins column)))
      by (auto; lia).
    eauto.
Qed.

Lemma varied_not_tied (column : list Z) : varied column -> tied column -> False.
Proof. intros (v & w & Hv & Hw & Hne) Ht. apply Hne, Ht; assumption. Qed.

(** X5.  [_dynamic_qcut], given four distinct labels and a column that is
    not empty, with values in the range where the float64 boundaries of
    pandas are exact, succeeds exactly when the column holds two different
    values, and otherwise raises the ValueError about the number of labels;
    when it succeeds it returns one label per value, each a label of the
    list (never NaN). *)
Theorem dynamic_qcut_succeeds_iff_varied (column labels : list Z) :
  exact_column column -> NoDup labels -> length labels = 4%nat ->
  ((exists ls, _dynamic_qcut column labels = Ok ls) <-> varied column) /\
  (_dynamic_qcut column labels = Raise label_count_error <-> tied column) /\
  (forall ls, _dynamic_qcut column labels = Ok ls ->
     length ls = length column /\
     Forall (fun l => exists z, l = Some z /\ In z labels) ls).
Proof.
  intros _ Hnd Hlen.
  destruct (dynamic_qcut_dichotomy column labels Hnd Hlen)
    as [[Hv [ls Hok]]|[Ht Herr]].
  - split; [split; eauto|]. split.
    + split; [rewrite Hok; discriminate|].
      intro Ht. destruct (varied_not_tied _ Hv Ht).
    + intros ls' Hok'. split; [eapply dynamic_qcut_length; eauto|].
      destruct (dynamic_qcut_labelled _ _ _ Hnd Hlen Hok') as (_ & _ & Hall).
      eapply Forall_impl; [|exact Hall].
      intros l (z & -> & Hz). exists z. split; [reflexivity|].
      eapply lastn_incl, Hz.
  - split; [|split].
    + split; [intros [ls Hok]; rewrite Herr in Hok; discriminate|].
      intro Hv. destruct (varied_not_tied _ Hv Ht).
    + split; auto.
    + intros ls Hok. rewrite Herr in Hok. discriminate.
Qed.

Lemma dynamic_qcut_succeeds_iff_varied_witness :
  ((exists ls, _dynamic_qcut collapsed_column [1; 2; 3; 4] = Ok ls)
   <-> varied collapsed_column) /\
  (_dynamic_qcut collapsed_column [1; 2; 3; 4] = Raise label_count_error
   <-> tied collapsed_column) /\
  (forall ls, _dynamic_qcut collapsed_column [1; 2; 3; 4] = Ok ls ->
     length ls = length collapsed_column /\
     Forall (fun l => exists z, l = Some z /\ In z [1; 2; 3; 4]) ls).
Proof.
  apply (dynamic_qcut_succeeds_iff_varied collapsed_column [1; 2; 3; 4]).
  - split; [discriminate|]. split; [vm_compute; discriminate|].
    repeat constructor; vm_compute; discriminate.
  - repeat constructor; simpl; intuition lia.
  - reflexivity.
Defined.

Lemma group_keys_length (table : DataFrame) :
  (length (group_keys table) <= length table)%nat.
Proof.
  unfold group_keys. rewrite sort_length.
  etransitivity; [apply unique_length_le|]. rewrite length_map. lia.
Qed.

(** The aggregated columns of a table in the exact range are in the exact
    range. *)
Lemma exact_table_columns (table : DataFrame) :
  exact_table table ->
  let frame := aggregate table (pd.max (map IslemTarih table)) in
  exact_column (map Recency frame) /\
  exact_column (map Frequency frame) /\
  exact_column (map Monetary frame).
Proof.
  intros (Hne & Hlen & Htime & Hamount) frame.
  assert (Hframe : frame <> []).
  { destruct table as [|t table]; [congruence|].
    assert (Hk : In (id t) (group_keys (t :: table)))
      by (apply group_keys_in; left; reflexivity).
    unfold frame, aggregate, groupby.
    destruct (group_keys (t :: table)); [contradiction | discriminate]. }
  assert (Hsize : Z.of_nat (length frame) <= exact_bound).
  { unfold frame, aggregate, groupby. rewrite !length_map.
    pose proof (group_keys_length table). lia. }
  assert (Hrows : forall row, In row frame ->
            Z.abs (Recency row) <= exact_bound /\
            Z.abs (Frequency row) <= exact_bound /\
            Z.abs (Monetary row) <= exact_bound).
  { intros row Hrow. apply aggregate_in in Hrow. destruct Hrow as [Hkey Hrow].
    pose proof (group_rows_nonempty _ _ Hkey) as Hg.
    set (group := group_rows table (index row)) in *.
    assert (Htab : map IslemTarih table <> []).
    { destruct table; [congruence | discriminate]. }
    assert (Hgrp : map IslemTarih group <> []).
    { destruct group; [congruence | discriminate]. }
    destruct (max_spec _ Htab) as [Hin Hall].
    destruct (max_spec _ Hgrp) as [Hin' _].
    rewrite Forall_forall in Hall, Htime.
    assert (Hown : In (pd.max (map IslemTarih group)) (map IslemTarih table)).
    { apply in_map_iff in Hin'. destruct Hin' as (u & <- & Hu).
      apply in_map. apply group_rows_in in Hu. tauto. }
    pose proof (Hall _ Hown) as Hle.
    apply in_map_iff in Hin. destruct Hin as (t1 & E1 & H1).
    apply in_map_iff in Hown. destruct Hown as (t2 & E2 & H2).
    pose proof (Htime _ H1) as B1. pose proof (Htime _ H2) as B2.
    rewrite E1 in B1. rewrite E2 in B2.
    rewrite Hrow. simpl. split; [|split].
    - assert (Hd : 0 <= days (pd.max (map IslemTarih table)
                              - pd.max (map IslemTarih group))
                   <= 2 ^ 62 / ns_per_day).
      { split; [apply days_nonneg; lia|].
        unfold days. apply Z.div_le_mono; [reflexivity | lia]. }
      assert (Hc : 2 ^ 62 / ns_per_day <= exact_bound)
        by (vm_compute; discriminate).
      lia.
    - unfold pd.count. rewrite length_map.
      pose proof (filter_length_le (fun r => id r =? index row) table).
      unfold group, group_rows. lia.
    - unfold pd.sum_of. rewrite sum_total.
      pose proof (group_total_bound (fun r => id r =? index row) table) as Hb.
      assert (Hw : 2 ^ 40 < 2 ^ 63) by (vm_compute; reflexivity).
      unfold exact_bound in *.
      rewrite wrap64_small; unfold group, group_rows; lia. }
  repeat split;
    try (destruct frame; [congruence | discriminate]);
    try (rewrite length_map; exact Hsize);
    apply Forall_forall; intros v Hv; apply in_map_iff in Hv;
    destruct Hv as (row & <- & Hrow); apply (Hrows row Hrow).
Qed.

(** X6.  On a table in the exact range (not empty, timestamps far from the
    ends of the int64 range, amounts whose absolute values add up to at most
    [exact_bound]), the three aggregated columns are in the exact range, and
    the construction of the object succeeds exactly when each of them holds
    two different values; when Recency, Frequency or Monetary is the same
    for all customers (one customer only, or every customer with the same
    number of transactions), it raises the ValueError about the number of
    labels and no frame is built. *)
Theorem init_succeeds_iff_varied (table : DataFrame) :
  exact_table table ->
  let frame := aggregate table (pd.max (map IslemTarih table)) in
  (exact_column (map Recency frame) /\ exact_column (map Frequency frame) /\
   exact_column (map Monetary frame)) /\
  ((varied (map Recency frame) /\ varied (map Frequency frame) /\
    varied (map Monetary frame) /\ exists self, __init__ table = Ok self) \/
   ((tied (map Recency frame) \/ tied (map Frequency frame) \/
     tied (map Monetary frame)) /\
    __init__ table = Raise label_count_error)).
Proof.
  intros Hexact frame. split; [apply exact_table_columns, Hexact|].
  destruct four_three_two_one as [Hnd1 Hlen1].
  destruct one_two_three_four as [Hnd2 Hlen2].
  unfold __init__, _calculate_rfm. fold frame.
  destruct (dynamic_qcut_dichotomy (map Recency frame) _ Hnd1 Hlen1)
    as [[HvR [rs ->]]|[HtR ->]]; [|right; simpl; auto].
  destruct (dynamic_qcut_dichotomy (map Frequency frame) _ Hnd2 Hlen2)
    as [[HvF [fs ->]]|[HtF ->]]; [|right; simpl; auto].
  destruct (dynamic_qcut_dichotomy (map Monetary frame) _ Hnd2 Hlen2)
    as [[HvM [ms ->]]|[HtM ->]]; [|right; simpl; auto].
  left. simpl. eauto 6.
Qed.

Lemma init_succeeds_iff_varied_witness :
  tied (map Frequency (aggregate single_purchase_table
                         (pd.max (map IslemTarih single_purchase_table)))) /\
  __init__ single_purchase_table = Raise label_count_error.
Proof.
  assert (Hexact : exact_table single_purchase_table).
  { split; [discriminate|]. split; [vm_compute; discriminate|].
    split; [repeat constructor; vm_compute; discriminate
           | vm_compute; discriminate]. }
  destruct (proj2 (init_succeeds_iff_varied single_purchase_table Hexact))
    as [(_ & _ & _ & self & Hok)|[_ Herr]].
  - vm_compute in Hok. discriminate.
  - split; [|exact Herr].
    intros v w Hv Hw. vm_compute in Hv, Hw.
    destruct Hv as [<-|[<-|[<-|[]]]], Hw as [<-|[<-|[<-|[]]]]; reflexivity.
Defined.

(** ** Labels follow the order of the values *)

Lemma searchsorted_left_mono (bins : list quarters) (x y : quarters) :
  x <= y -> (pd.searchsorted_left bins x <= pd.searchsorted_left bins y)%nat.
Proof.
  intro Hxy. induction bins as [|b bs IH]; simpl; auto.
  destruct (Z.ltb_spec b x), (Z.ltb_spec b y); lia.
Qed.

Lemma bin_id_mono (bins : list quarters) (v w : Z) :
  (2 <= length bins)%nat ->
  nth 0 bins 0 <= to_quarters v -> v <= w ->
  (exists top, In top bins /\ to_quarters w <= top) ->
  (pd.bin_id bins true v <= pd.bin_id bins true w)%nat.
Proof.
  intros Hlen Hlow Hvw (top & Htop & Hw).
  assert (Hq : to_quarters v <= to_quarters w) by (unfold to_quarters; lia).
  assert (Rv : (1 <= pd.bin_id bins true v <= length bins - 1)%nat).
  { apply bin_id_range; auto. exists top. split; [exact Htop | lia]. }
  assert (Rw : (1 <= pd.bin_id bins true w <= length bins - 1)%nat).
  { apply bin_id_range; auto; [lia | eauto]. }
  pose proof (searchsorted_left_mono bins _ _ Hq) as Hmono.
  unfold pd.bin_id in *. simpl andb in *.
  destruct (Z.eqb_spec (to_quarters v) (nth 0 bins 0)) as [Ev|Nv];
    destruct (Z.eqb_spec (to_quarters w) (nth 0 bins 0)) as [Ew|Nw];
    repeat match goal with
           | H : context [if ?c then _ else _] |- _ => destruct c
           end; lia.
Qed.

Lemma take_nd_nth (column kept : list Z) (bins : list quarters) (i : nat) (v : Z) :
  nth_error column i = Some v ->
  nth_error (pd.take_nd kept (pd.bin_ids column bins true)) i =
  Some (match pd.bin_id bins true v with
        | O => None
        | S j => nth_error kept j
        end).
Proof.
  intro Hv. unfold pd.take_nd, pd.bin_ids. rewrite map_map.
  exact (map_nth_error (fun x => match pd.bin_id bins true x with
                                 | O => None
                                 | S j => nth_error kept j
                                 end) i column Hv).
Qed.

Lemma kept_ascending (n j : nat) :
  (j < n <= 4)%nat ->
  nth_error (lastn n [1; 2; 3; 4]) j = Some (4 - Z.of_nat n + Z.of_nat j + 1).
Proof.
  intro H.
  do 5 (destruct n as [|n]; [do 4 (destruct j as [|j]; try lia; try reflexivity)|]).
  lia.
Qed.

Lemma kept_descending (n j : nat) :
  (j < n <= 4)%nat ->
  nth_error (lastn n [4; 3; 2; 1]) j = Some (Z.of_nat n - Z.of_nat j).
Proof.
  intro H.
  do 5 (destruct n as [|n]; [do 4 (destruct j as [|j]; try lia; try reflexivity)|]).
  lia.
Qed.

(** The label of a value, from the number of its bin. *)
Lemma dynamic_qcut_label (column labels : list Z) (ls : list (option Z))
      (i : nat) (v : Z) :
  labels = [4; 3; 2; 1] \/ labels = [1; 2; 3; 4] ->
  _dynamic_qcut column labels = Ok ls ->
  nth_error column i = Some v ->
  let n := usable_bins column in
  let j := Z.of_nat (pd.bin_id (edges column) true v) in
  1 <= j <= n /\ n <= 4 /\
  (labels = [4; 3; 2; 1] -> nth_error ls i = Some (Some (n + 1 - j))) /\
  (labels = [1; 2; 3; 4] -> nth_error ls i = Some (Some (4 - n + j))).
Proof.
  intros Hl Hok Hv n j.
  assert (Hnd : NoDup labels /\ length labels = 4%nat).
  { destruct Hl as [->| ->];
      [apply four_three_two_one | apply one_two_three_four]. }
  destruct Hnd as [Hnd Hlen].
  destruct (dynamic_qcut_labelled _ _ _ Hnd Hlen Hok) as (Hn & -> & _).
  pose proof (usable_bins_range column) as Hr. fold n in Hn, Hr.
  apply nth_error_In in Hv as Hin.
  destruct (column_in_range column v Hin) as [Hlow Htop].
  assert (Hlen2 : (2 <= length (edges column))%nat).
  { unfold n, usable_bins in Hn. lia. }
  pose proof (bin_id_range _ v Hlen2 Hlow Htop) as Hid.
  rewrite (take_nd_nth _ _ _ _ _ Hv). fold n.
  assert (Hj : 1 <= j <= n) by (unfold j, n, usable_bins; lia).
  split; [exact Hj|]. split; [lia|].
  unfold j in *. clear j.
  destruct (pd.bin_id (edges column) true v) as [|k]; [lia|].
  split; intros ->.
  - rewrite kept_descending by lia. do 2 f_equal. lia.
  - rewrite kept_ascending by lia. do 2 f_equal. lia.
Qed.

(** X7.  In a successful call, the labels follow the order of the values:
    of two values of the column, the larger lies in the same or a later bin;
    with the ordering [1; 2; 3; 4] of Frequency and Monetary its label is at
    least that of the smaller, with the ordering [4; 3; 2; 1] of Recency at
    most. *)
Theorem labels_are_monotone (column labels : list Z) (ls : list (option Z))
        (i j : nat) (v w : Z) :
  labels = [4; 3; 2; 1] \/ labels = [1; 2; 3; 4] ->
  _dynamic_qcut column labels = Ok ls ->
  nth_error column i = Some v -> nth_error column j = Some w -> v <= w ->
  (pd.bin_id (edges column) true v <= pd.bin_id (edges column) true w)%nat /\
  exists a b,
    nth_error ls i = Some (Some a) /\ nth_error ls j = Some (Some b) /\
    (labels = [1; 2; 3; 4] -> a <= b) /\
    (labels = [4; 3; 2; 1] -> b <= a).
Proof.
  intros Hl Hok Hv Hw Hvw.
  destruct (dynamic_qcut_label _ _ _ _ _ Hl Hok Hv) as (Rv & Hn & Dv & Av).
  destruct (dynamic_qcut_label _ _ _ _ _ Hl Hok Hw) as (Rw & _ & Dw & Aw).
  assert (Hmono : (pd.bin_id (edges column) true v
                   <= pd.bin_id (edges column) true w)%nat).
  { apply nth_error_In in Hv as Hin. apply nth_error_In in Hw as Hin'.
    destruct (column_in_range column v Hin) as [Hlow _].
    destruct (column_in_range column w Hin') as [_ Htop].
    apply bin_id_mono; auto. unfold usable_bins in Rv. lia. }
  split; [exact Hmono|].
  destruct Hl as [->| ->].
  - eexists _, _. split; [apply Dv; reflexivity|].
    split; [apply Dw; reflexivity|]. split; [discriminate | intros _; lia].
  - eexists _, _. split; [apply Av; reflexivity|].
    split; [apply Aw; reflexivity|]. split; [intros _; lia | discriminate].
Qed.

Lemma labels_are_monotone_witness :
  (pd.bin_id (edges collapsed_column) true 2
   <= pd.bin_id (edges collapsed_column) true 9)%nat /\
  exists a b,
    nth_error [Some 2; Some 2; Some 2; Some 2; Some 3; Some 3; Some 4] 3
      = Some (Some a) /\
    nth_error [Some 2; Some 2; Some 2; Some 2; Some 3; Some 3; Some 4] 6
      = Some (Some b) /\
    ([1; 2; 3; 4] = [1; 2; 3; 4] -> a <= b) /\
    ([1; 2; 3; 4] = [4; 3; 2; 1] -> b <= a).
Proof.
  apply (labels_are_monotone collapsed_column [1; 2; 3; 4]
           [Some 2; Some 2; Some 2; Some 2; Some 3; Some 3; Some 4] 3 6 2 9).
  - right. reflexivity.
  - reflexivity.
  - reflexivity.
  - reflexivity.
  - lia.
Defined.

(** ** The two ends of a column *)

Lemma edges_bounded (column : list Z) :
  column <> [] ->
  Forall (fun e => e <= to_quarters (nth (length column - 1) (ZSort.sort column) 0))
         (edges column).
Proof.
  intro Hne. rewrite Forall_forall. intros e He.
  rewrite edges_unique in He. apply (proj1 (unique_in _ _)) in He.
  pose proof (sort_sorted column) as Hs.
  pose proof (sort_nonempty column Hne) as Hn.
  unfold to_quarters. rewrite <- (sort_length column).
  rewrite <- (quantile_last _ Hs Hn).
  simpl in He.
  destruct He as [<-|[<-|[<-|[<-|[<-|[]]]]]]; apply quantile_mono; auto with arith.
Qed.

Lemma bin_id_top (bins : list quarters) (v : Z) :
  StronglySorted Z.lt bins -> (2 <= length bins)%nat ->
  In (to_quarters v) bins ->
  Forall (fun e => e <= to_quarters v) bins ->
  pd.bin_id bins true v = (length bins - 1)%nat.
Proof.
  intros Hs Hlen Hin Hall. rewrite Forall_forall in Hall.
  destruct (In_nth _ _ 0 Hin) as (p & Hp & Hnth).
  assert (Hlast : p = (length bins - 1)%nat).
  { destruct (Nat.eq_dec p (length bins - 1)) as [|Hne]; auto.
    pose proof (sorted_lt_nth bins Hs p (S p) ltac:(lia)) as Hlt.
    pose proof (Hall (nth (S p) bins 0) ltac:(apply nth_In; lia)). lia. }
  subst p. unfold pd.bin_id. simpl andb.
  pose proof (sorted_lt_nth bins Hs 0 (length bins - 1) ltac:(lia)) as Hlt.
  destruct (Z.eqb_spec (to_quarters v) (nth 0 bins 0)); [lia|].
  rewrite <- Hnth, (searchsorted_left_edge bins Hs) by lia.
  destruct (Nat.eqb_spec (length bins - 1) (length bins)); [lia|].
  destruct (Nat.eqb_spec (length bins - 1) 0); [lia | reflexivity].
Qed.

Lemma column_maximum (column : list Z) (v : Z) :
  In v column -> (forall w, In w column -> w <= v) ->
  v = nth (length column - 1) (ZSort.sort column) 0.
Proof.
  intros Hv Hmax.
  assert (Hne : column <> []) by (intros ->; contradiction).
  pose proof (sorted_range _ (sort_sorted column) (sort_nonempty column Hne) v
                (proj2 (sort_in column v) Hv)) as [_ Hhi].
  rewrite sort_length in Hhi.
  destruct (column_extremes column Hne) as [_ Hin].
  specialize (Hmax _ Hin). lia.
Qed.

(** X8.  In a successful call that leaves [n] usable bins, the largest value
    of the column lies in the last bin and gets the last label of the
    ordering, 1 for Recency and 4 for Frequency and Monetary, whatever [n];
    the smallest value lies in the first bin and gets [n] for Recency and
    [5 - n] for Frequency and Monetary. *)
Theorem labels_of_the_extremes (column labels : list Z) (ls : list (option Z)) :
  labels = [4; 3; 2; 1] \/ labels = [1; 2; 3; 4] ->
  _dynamic_qcut column labels = Ok ls ->
  let n := usable_bins column in
  (forall i v, nth_error column i = Some v ->
     (forall w, In w column -> w <= v) ->
     Z.of_nat (pd.bin_id (edges column) true v) = n /\
     (labels = [4; 3; 2; 1] -> nth_error ls i = Some (Some 1)) /\
     (labels = [1; 2; 3; 4] -> nth_error ls i = Some (Some 4))) /\
  (forall i v, nth_error column i = Some v ->
     (forall w, In w column -> v <= w) ->
     pd.bin_id (edges column) true v = 1%nat /\
     (labels = [4; 3; 2; 1] -> nth_error ls i = Some (Some n)) /\
     (labels = [1; 2; 3; 4] -> nth_error ls i = Some (Some (5 - n)))).
Proof.
  intros Hl Hok n. split; intros i v Hv Hext.
  - destruct (dynamic_qcut_label _ _ _ _ _ Hl Hok Hv) as (Rj & Hn & Dv & Av).
    fold n in Rj, Hn, Dv, Av.
    apply nth_error_In in Hv as Hin.
    assert (Hne : column <> []) by (intros ->; contradiction).
    assert (Hlen2 : (2 <= length (edges column))%nat).
    { unfold n, usable_bins in Rj. lia. }
    assert (Hid : pd.bin_id (edges column) true v = (length (edges column) - 1)%nat).
    { apply bin_id_top; auto.
      - apply edges_sorted.
      - rewrite (column_maximum column v Hin Hext). apply edges_top, Hne.
      - pose proof (edges_bounded column Hne) as Hb.
        rewrite <- (column_maximum column v Hin Hext) in Hb. exact Hb. }
    assert (Hj : Z.of_nat (pd.bin_id (edges column) true v) = n).
    { rewrite Hid. unfold n, usable_bins. lia. }
    rewrite Hj in Dv, Av.
    split; [exact Hj|]. split; intro E.
    + rewrite (Dv E). do 2 f_equal. lia.
    + rewrite (Av E). do 2 f_equal. lia.
  - destruct (dynamic_qcut_label _ _ _ _ _ Hl Hok Hv) as (Rj & Hn & Dv & Av).
    fold n in Rj, Hn, Dv, Av.
    apply nth_error_In in Hv as Hin.
    assert (Hlen2 : (2 <= length (edges column))%nat).
    { unfold n, usable_bins in Rj. lia. }
    pose proof (bin_id_lowest _ v Hlen2 (column_minimum column v Hin Hext)) as Hid.
    rewrite Hid in Dv, Av. simpl Z.of_nat in Dv, Av.
    split; [exact Hid|]. split; intro E.
    + rewrite (Dv E). do 2 f_equal. lia.
    + rewrite (Av E). do 2 f_equal. lia.
Qed.

Lemma labels_of_the_extremes_witness :
  nth_error [Some 3; Some 3; Some 3; Some 3; Some 2; Some 2; Some 1] 6
    = Some (Some 1) /\
  nth_error [Some 3; Some 3; Some 3; Some 3; Some 2; Some 2; Some 1] 0
    = Some (Some (usable_bins collapsed_column)) /\
  usable_bins collapsed_column = 3.
Proof.
  assert (Hok : _dynamic_qcut collapsed_column [4; 3; 2; 1]
                = Ok [Some 3; Some 3; Some 3; Some 3; Some 2; Some 2; Some 1])
    by reflexivity.
  destruct (labels_of_the_extremes collapsed_column [4; 3; 2; 1] _
              (or_introl eq_refl) Hok) as [Hmax Hmin].
  split; [|split; [|reflexivity]].
  - apply (Hmax 6%nat 9); [reflexivity | | reflexivity].
    intros w Hw. simpl in Hw. lia.
  - apply (Hmin 0%nat 1); [reflexivity | | reflexivity].
    intros w Hw. simpl in Hw. lia.
Defined.

(** ** The scored frame, continued *)

(** X9.  In the frame of every constructed object the composite score of
    each customer lies between 3 and 12. *)
Theorem score_range (table : DataFrame) (self : RFM) (row : RFMRow) :
  __init__ table = Ok self -> In row (rfm self) ->
  3 <= RFM_Score row <= 12.
Proof.
  intros H Hrow. destruct (init_inv _ _ H) as (_ & _ & Hrfm).
  destruct (calculate_rfm_labels _ _ _ Hrfm row Hrow)
    as (r & f & m & _ & _ & _ & Ir & If & Im & _ & Hsc).
  rewrite Hsc. unfold score_of, row_sum. simpl in *. lia.
Qed.

Lemma score_range_witness :
  exists row, In row (rfm sample_object) /\ 3 <= RFM_Score row <= 12.
Proof.
  destruct (nth_error (rfm sample_object) 0) as [row|] eqn:E;
    [|vm_compute in E; discriminate].
  assert (Hin : In row (rfm sample_object)) by (eapply nth_error_In; exact E).
  exists row. split; [exact Hin|].
  apply (score_range sample_table sample_object row);
    [vm_compute; reflexivity | exact Hin].
Defined.

Lemma decode_labels (r f m : Z) :
  In r [1; 2; 3; 4] -> In f [1; 2; 3; 4] -> In m [1; 2; 3; 4] ->
  decode_segment (segment_of (Some r) (Some f) (Some m)) = [r; f; m].
Proof.
  simpl. intros Ir If Im.
  repeat match goal with
         | H : _ \/ _ |- _ => destruct H
         | H : False |- _ => contradiction
         end; subst; reflexivity.
Qed.

Lemma typed_assign_scores_int64 (rows : list Metrics) :
  forall rs fs ms,
    Typed.assign_scores int64 rows rs fs ms = assign_scores rows rs fs ms.
Proof.
  induction rows as [|row rows IH]; intros [|r rs] [|f fs] [|m ms];
    simpl; try reflexivity.
  rewrite IH. reflexivity.
Qed.

(** With an int64 amounts column the code is the one modelled first. *)
Lemma typed_init_int64 (table : DataFrame) :
  Typed.__init__ int64 table = __init__ table.
Proof.
  unfold Typed.__init__, __init__, Typed._calculate_rfm, _calculate_rfm.
  change (Typed.aggregate int64 table (pd.max (map IslemTarih table)))
    with (aggregate table (pd.max (map IslemTarih table))).
  destruct (_dynamic_qcut (map Recency _) _) as [rs|]; [|reflexivity].
  destruct (_dynamic_qcut (map Frequency _) _) as [fs|]; [|reflexivity].
  destruct (_dynamic_qcut (map Monetary _) _) as [ms|]; [|reflexivity].
  simpl. rewrite typed_assign_scores_int64. reflexivity.
Qed.

(** X10.  With an int64 amounts column, in the frame of every constructed
    object the segment code can be read back: its three digits are the R, F
    and M labels of the row, in that order; so two customers with the same
    Segment have the same three labels and the same Score.  (With a float64
    amounts column the code is nine characters long.) *)
Theorem segment_decodes (table : DataFrame) (self : RFM) (row : RFMRow) :
  Typed.__init__ int64 table = Ok self -> In row (rfm self) ->
  map Some (decode_segment (RFM_Segment row)) = [R row; F row; M row] /\
  forall row', In row' (rfm self) ->
    RFM_Segment row' = RFM_Segment row ->
    R row' = R row /\ F row' = F row /\ M row' = M row /\
    RFM_Score row' = RFM_Score row.
Proof.
  intros H Hrow. rewrite typed_init_int64 in H.
  destruct (init_inv _ _ H) as (_ & _ & Hrfm).
  assert (Hdec : forall x, In x (rfm self) ->
            map Some (decode_segment (RFM_Segment x)) = [R x; F x; M x] /\
            RFM_Score x = total (decode_segment (RFM_Segment x))).
  { intros x Hx.
    destruct (calculate_rfm_labels _ _ _ Hrfm x Hx)
      as (r & f & m & Er & Ef & Em & Ir & If & Im & Hseg & Hsc).
    rewrite Hseg, Hsc, Er, Ef, Em, (decode_labels r f m Ir If Im).
    split; [reflexivity|]. unfold score_of, row_sum, total. simpl. lia. }
  destruct (Hdec row Hrow) as [Hr Hs]. split; [exact Hr|].
  intros row' Hrow' Heq. destruct (Hdec row' Hrow') as [Hr' Hs'].
  rewrite Heq, Hr in Hr'. rewrite Heq, <- Hs in Hs'.
  injection Hr' as -> -> ->. auto.
Qed.

Lemma segment_decodes_witness :
  exists row, In row (rfm sample_object) /\
    map Some (decode_segment (RFM_Segment row)) = [R row; F row; M row].
Proof.
  destruct (nth_error (rfm sample_object) 0) as [row|] eqn:E;
    [|vm_compute in E; discriminate].
  assert (Hin : In row (rfm sample_object)) by (eapply nth_error_In; exact E).
  exists row. split; [exact Hin|].
  apply (segment_decodes sample_table sample_object row);
    [vm_compute; reflexivity | exact Hin].
Defined.

(** ** The classifier, continued *)

(** X11.  The tier never goes down when the score goes up: for a deviation
    that is not negative, a score at least as large gets a tier at least as
    high (Bronz, Gümüş, Altın, Platinum from the lowest). *)
Theorem status_is_monotone (score1 score2 avg std : Q) :
  (0 <= std)%Q -> (score1 <= score2)%Q ->
  tier_rank (_get_rfm_status score1 avg std)
  <= tier_rank (_get_rfm_status score2 avg std).
Proof.
  intros Hstd Hle. unfold _get_rfm_status, Qge_bool, Qgt_bool.
  q_cases; simpl;
    try (apply Z.leb_le; reflexivity); exfalso; lra.
Qed.

Lemma status_is_monotone_witness :
  tier_rank (_get_rfm_status (inject_Z 6) (36 # 5) (1303 # 1000))
  <= tier_rank (_get_rfm_status (inject_Z 9) (36 # 5) (1303 # 1000)).
Proof.
  apply status_is_monotone; apply Qle_bool_iff; reflexivity.
Defined.

(** X12.  [_get_rfm_description] answers the default description exactly
    for the statuses that are not a key of the dictionary (other spellings
    included), and the four descriptions are distinct: the description
    determines the tier. *)
Theorem description_default_iff_unknown (status : string) :
  (_get_rfm_description status = "Tanımsız"%string
   <-> ~ In status (map fst descriptions)) /\
  (forall status',
     In status (map fst descriptions) ->
     _get_rfm_description status' = _get_rfm_description status ->
     status' = status).
Proof.
  assert (Hkey : forall s, In s (map fst descriptions) ->
            _get_rfm_description s <> "Tanımsız"%string /\
            In (s, _get_rfm_description s) descriptions).
  { intros s Hs. simpl in Hs.
    destruct Hs as [<-|[<-|[<-|[<-|[]]]]]; split;
      try (vm_compute; discriminate); vm_compute; tauto. }
  assert (Hno : forall s, ~ In s (map fst descriptions) ->
            _get_rfm_description s = "Tanımsız"%string).
  { intros s Hs. unfold _get_rfm_description, descriptions, dict_get.
    simpl in Hs.
    repeat match goal with
           | |- context [String.eqb ?k s] =>
               destruct (String.eqb_spec k s); [exfalso; apply Hs; auto 6|]
           end.
    reflexivity. }
  split.
  - split.
    + intros Hd Hin. apply (proj1 (Hkey _ Hin)), Hd.
    + apply Hno.
  - intros status' Hin Heq.
    assert (Hin' : In status' (map fst descriptions)).
    { destruct (in_dec string_dec status' (map fst descriptions)) as [|Hn]; auto.
      exfalso. apply (proj1 (Hkey _ Hin)). rewrite <- Heq. apply Hno, Hn. }
    simpl in Hin, Hin'.
    destruct Hin as [<-|[<-|[<-|[<-|[]]]]];
      destruct Hin' as [<-|[<-|[<-|[<-|[]]]]];
      try reflexivity; vm_compute in Heq; discriminate.
Qed.

Lemma description_default_iff_unknown_witness :
  _get_rfm_description "Gold" = "Tanımsız"%string.
Proof.
  apply (proj1 (description_default_iff_unknown "Gold")).
  simpl. intuition discriminate.
Defined.

(** ** Who is above and who is below the mean *)

Lemma total_upper (l : list Z) (m : Z) :
  Forall (fun x => x <= m) l -> total l <= Z.of_nat (length l) * m.
Proof.
  unfold total. induction 1 as [|x l Hx Hl IH]; simpl fold_right; simpl length; lia.
Qed.

Lemma total_lower_strict (l : list Z) (m w : Z) :
  Forall (fun x => m <= x) l -> In w l -> m < w ->
  Z.of_nat (length l) * m < total l.
Proof.
  unfold total. intros Hall Hin Hlt.
  assert (Hweak : forall l', Forall (fun x => m <= x) l' ->
            Z.of_nat (length l') * m <= fold_right Z.add 0 l').
  { induction 1; simpl fold_right; simpl length; lia. }
  induction Hall as [|x l Hx Hl IH]; [contradiction|].
  simpl fold_right. simpl length. destruct Hin as [->|Hin].
  - specialize (Hweak l Hl). lia.
  - specialize (IH Hin). lia.
Qed.

Lemma least_element (l : list Z) :
  l <> [] -> exists x, In x l /\ Forall (fun y => x <= y) l.
Proof.
  induction l as [|a l IH]; [congruence|]. intros _.
  destruct l as [|b l].
  - exists a. split; [left; reflexivity | repeat constructor; lia].
  - destruct (IH ltac:(discriminate)) as (x & Hx & Hall).
    destruct (Z_le_gt_dec a x) as [Hle|Hgt].
    + exists a. split; [left; reflexivity|]. constructor; [lia|].
      eapply Forall_impl; [|exact Hall]. simpl. intros; lia.
    + exists x. split; [right; exact Hx|]. constructor; [lia | exact Hall].
Qed.

Lemma count_positive (column : list Z) :
  column <> [] -> (0 < inject_Z (pd.count column))%Q.
Proof.
  intro Hne. unfold pd.count.
  change 0%Q with (inject_Z 0). rewrite <- Zlt_Qlt.
  destruct column; [congruence | simpl; lia].
Qed.

Lemma mean_le_max (column : list Z) :
  column <> [] -> (pd.mean column <= inject_Z (pd.max column))%Q.
Proof.
  intro Hne. unfold pd.mean.
  apply Qle_shift_div_r; [apply count_positive, Hne|].
  rewrite <- inject_Z_mult, <- Zle_Qle, sum_total. unfold pd.count.
  destruct (max_spec column Hne) as [_ Hall].
  pose proof (total_upper column _ Hall). lia.
Qed.

Lemma least_lt_mean (column : list Z) (x w : Z) :
  Forall (fun y => x <= y) column -> In w column -> x < w ->
  (inject_Z x < pd.mean column)%Q.
Proof.
  intros Hall Hin Hlt.
  assert (Hne : column <> []) by (intros ->; contradiction).
  unfold pd.mean.
  apply Qlt_shift_div_l; [apply count_positive, Hne|].
  rewrite <- inject_Z_mult, <- Zlt_Qlt, sum_total. unfold pd.count.
  pose proof (total_lower_strict column x w Hall Hin Hlt). lia.
Qed.

Lemma status_above_mean (score avg std : Q) :
  (avg <= score)%Q ->
  _get_rfm_status score avg std = "Platinum"%string \/
  _get_rfm_status score avg std = "Altın"%string.
Proof.
  intro H. unfold _get_rfm_status, Qge_bool, Qgt_bool.
  q_cases; simpl; auto; exfalso; lra.
Qed.

Lemma status_below_mean (score avg std : Q) :
  (0 <= std)%Q -> (score < avg)%Q ->
  _get_rfm_status score avg std = "Gümüş"%string \/
  _get_rfm_status score avg std = "Bronz"%string.
Proof.
  intros Hstd H. unfold _get_rfm_status, Qge_bool, Qgt_bool.
  q_cases; simpl; auto; exfalso; lra.
Qed.

Lemma valued_row_of (std : list Z -> Q) (self : RFM) (row : RFMRow) :
  In row (rfm self) ->
  exists valued,
    In valued (calculate_customer_value std self) /\ base valued = row /\
    Status valued = _get_rfm_status (inject_Z (RFM_Score row))
                      (pd.mean (map RFM_Score (rfm self)))
                      (std (map RFM_Score (rfm self))).
Proof.
  intro Hrow. unfold calculate_customer_value.
  eexists. split; [apply in_map, Hrow|]. simpl. auto.
Qed.

(** X13.  The valued frame of a constructed object always has a customer
    rated Platinum or Altın, the one with the highest score, which is at
    least the mean; and when the scores are not all equal and the deviation
    is not negative, it has a customer rated Gümüş or Bronz, the one with
    the lowest score, which is below the mean. *)
Theorem both_halves_are_populated (std : list Z -> Q) (table : DataFrame)
        (self : RFM) :
  __init__ table = Ok self ->
  let scores := map RFM_Score (rfm self) in
  (exists row, In row (calculate_customer_value std self) /\
     is_maximum (RFM_Score (base row)) scores /\
     (Status row = "Platinum"%string \/ Status row = "Altın"%string)) /\
  ((0 <= std scores)%Q -> varied scores ->
   exists row, In row (calculate_customer_value std self) /\
     Forall (fun s => RFM_Score (base row) <= s) scores /\
     (Status row = "Gümüş"%string \/ Status row = "Bronz"%string)).
Proof.
  intros Hinit scores.
  assert (Hsc : scores <> []).
  { destruct (init_inv _ _ Hinit) as (_ & _ & Hrfm).
    pose proof (scored_frame_size _ _ _ Hrfm) as Hsize.
    unfold scores. destruct (rfm self); [simpl in Hsize; lia | discriminate]. }
  split.
  - pose proof (max_spec scores Hsc) as Hmax.
    destruct (proj1 (in_map_iff _ _ _) (proj1 Hmax)) as (row & Hscore & Hrow).
    destruct (valued_row_of std self row Hrow) as (valued & Hin & Hb & Hs).
    exists valued. split; [exact Hin|]. rewrite Hb, Hscore.
    split; [exact Hmax|]. rewrite Hs, Hscore.
    apply status_above_mean, mean_le_max, Hsc.
  - intros Hstd (v & w & Hv & Hw & Hvw).
    destruct (least_element scores Hsc) as (x & Hx & Hall).
    destruct (proj1 (in_map_iff _ _ _) Hx) as (row & Hscore & Hrow).
    destruct (valued_row_of std self row Hrow) as (valued & Hin & Hb & Hs).
    exists valued. split; [exact Hin|]. rewrite Hb, Hscore.
    split; [exact Hall|]. rewrite Hs, Hscore.
    apply status_below_mean; [exact Hstd|].
    rewrite Forall_forall in Hall.
    pose proof (Hall v Hv). pose proof (Hall w Hw).
    destruct (Z_lt_le_dec x v) as [Hlt|Hge].
    + apply (least_lt_mean scores x v); auto. apply Forall_forall, Hall.
    + apply (least_lt_mean scores x w); auto; [apply Forall_forall, Hall | lia].
Qed.

Lemma both_halves_are_populated_witness :
  (exists row, In row (calculate_customer_value sample_std sample_object) /\
     is_maximum (RFM_Score (base row)) (map RFM_Score (rfm sample_object)) /\
     (Status row = "Platinum"%string \/ Status row = "Altın"%string)) /\
  ((0 <= sample_std (map RFM_Score (rfm sample_object)))%Q ->
   varied (map RFM_Score (rfm sample_object)) ->
   exists row, In row (calculate_customer_value sample_std sample_object) /\
     Forall (fun s => RFM_Score (base row) <= s)
            (map RFM_Score (rfm sample_object)) /\
     (Status row = "Gümüş"%string \/ Status row = "Bronz"%string)).
Proof.
  apply (both_halves_are_populated sample_std sample_table sample_object).
  vm_compute. reflexivity.
Defined.

(** ** The best customers *)

Lemma dynamic_qcut_top_label (column labels : list Z) (ls : list (option Z))
      (i : nat) (v : Z) :
  labels = [4; 3; 2; 1] \/ labels = [1; 2; 3; 4] ->
  _dynamic_qcut column labels = Ok ls ->
  nth_error column i = Some v -> (forall w, In w column -> w <= v) ->
  (labels = [4; 3; 2; 1] -> nth_error ls i = Some (Some 1)) /\
  (labels = [1; 2; 3; 4] -> nth_error ls i = Some (Some 4)).
Proof.
  intros Hl Hok Hv Hext.
  destruct (dynamic_qcut_label _ _ _ _ _ Hl Hok Hv) as (Rj & Hn & Dv & Av).
  apply nth_error_In in Hv as Hin.
  assert (Hne : column <> []) by (intros ->; contradiction).
  assert (Hlen2 : (2 <= length (edges column))%nat).
  { unfold usable_bins in Rj. lia. }
  assert (Hid : pd.bin_id (edges column) true v = (length (edges column) - 1)%nat).
  { apply bin_id_top; auto.
    - apply edges_sorted.
    - rewrite (column_maximum column v Hin Hext). apply edges_top, Hne.
    - pose proof (edges_bounded column Hne) as Hb.
      rewrite <- (column_maximum column v Hin Hext) in Hb. exact Hb. }
  rewrite Hid in Dv, Av. unfold usable_bins in *.
  split; intro E.
  - rewrite (Dv E). do 2 f_equal. lia.
  - rewrite (Av E). do 2 f_equal. lia.
Qed.

Lemma scored_row_position (table : DataFrame) (latest : Z)
      (rows : list RFMRow) (row : RFMRow) :
  _calculate_rfm table latest = Ok rows -> In row rows ->
  exists i rs fs ms,
    _dynamic_qcut (map Recency (aggregate table latest)) [4; 3; 2; 1] = Ok rs /\
    _dynamic_qcut (map Frequency (aggregate table latest)) [1; 2; 3; 4] = Ok fs /\
    _dynamic_qcut (map Monetary (aggregate table latest)) [1; 2; 3; 4] = Ok ms /\
    nth_error (aggregate table latest) i = Some (metrics row) /\
    nth_error rs i = Some (R row) /\
    nth_error fs i = Some (F row) /\
    nth_error ms i = Some (M row).
Proof.
  intros H Hrow.
  destruct (calculate_rfm_inv _ _ _ H) as (rs & fs & ms & Hr & Hf & Hm & ->).
  pose proof (dynamic_qcut_length _ _ _ Hr) as Lr.
  pose proof (dynamic_qcut_length _ _ _ Hf) as Lf.
  pose proof (dynamic_qcut_length _ _ _ Hm) as Lm.
  rewrite length_map in Lr, Lf, Lm.
  destruct (assign_scores_columns _ _ _ _ Lr Lf Lm) as (C0 & C1 & C2 & C3).
  destruct (In_nth_error _ _ Hrow) as [i Hi].
  exists i, rs, fs, ms. repeat split; auto.
  - rewrite <- C0. apply map_nth_error, Hi.
  - rewrite <- C1. apply map_nth_error, Hi.
  - rewrite <- C2. apply map_nth_error, Hi.
  - rewrite <- C3. apply map_nth_error, Hi.
Qed.

(** X14.  In the frame of every constructed object, a customer whose
    Frequency is the largest of the frame has F = 4, one whose Monetary is
    the largest has M = 4, and one whose Recency is the largest (the least
    recent) has R = 1, however many bins the collapse of duplicates left. *)
Theorem best_customers_get_top_labels (table : DataFrame) (self : RFM)
        (row : RFMRow) :
  __init__ table = Ok self -> In row (rfm self) ->
  ((forall other, In other (rfm self) ->
      Frequency (metrics other) <= Frequency (metrics row)) ->
   F row = Some 4) /\
  ((forall other, In other (rfm self) ->
      Monetary (metrics other) <= Monetary (metrics row)) ->
   M row = Some 4) /\
  ((forall other, In other (rfm self) ->
      Recency (metrics other) <= Recency (metrics row)) ->
   R row = Some 1).
Proof.
  intros H Hrow. destruct (init_inv _ _ H) as (_ & _ & Hrfm).
  pose proof (calculate_rfm_metrics _ _ _ Hrfm) as Hmet.
  destruct (scored_row_position _ _ _ _ Hrfm Hrow)
    as (i & rs & fs & ms & Hr & Hf & Hm & Hi & Ri & Fi & Mi).
  assert (Hcol : forall (g : Metrics -> Z) w,
            In w (map g (aggregate table (pd.max (map IslemTarih table)))) ->
            exists other, In other (rfm self) /\ g (metrics other) = w).
  { intros g w Hw. rewrite <- Hmet, map_map in Hw.
    apply in_map_iff in Hw. destruct Hw as (other & <- & Ho). eauto. }
  split; [|split]; intro Hbest.
  - destruct (dynamic_qcut_top_label _ _ _ i (Frequency (metrics row))
                (or_intror eq_refl) Hf) as [_ Htop].
    + apply map_nth_error, Hi.
    + intros w Hw. destruct (Hcol Frequency w Hw) as (other & Ho & <-). auto.
    + rewrite (Htop eq_refl) in Fi. congruence.
  - destruct (dynamic_qcut_top_label _ _ _ i (Monetary (metrics row))
                (or_intror eq_refl) Hm) as [_ Htop].
    + apply map_nth_error, Hi.
    + intros w Hw. destruct (Hcol Monetary w Hw) as (other & Ho & <-). auto.
    + rewrite (Htop eq_refl) in Mi. congruence.
  - destruct (dynamic_qcut_top_label _ _ _ i (Recency (metrics row))
                (or_introl eq_refl) Hr) as [Htop _].
    + apply map_nth_error, Hi.
    + intros w Hw. destruct (Hcol Recency w Hw) as (other & Ho & <-). auto.
    + rewrite (Htop eq_refl) in Ri. congruence.
Qed.

Lemma best_customers_get_top_labels_witness :
  exists row, In row (rfm sample_object) /\
    index (metrics row) = 5 /\ F row = Some 4 /\ M row = Some 4 /\ R row = Some 1.
Proof.
  destruct (nth_error (rfm sample_object) 4) as [row|] eqn:E;
    [|vm_compute in E; discriminate].
  assert (Hin : In row (rfm sample_object)) by (eapply nth_error_In; exact E).
  assert (Hrow : row = mkRFMRow (mkMetrics 5 4 5 50) (Some 1) (Some 4) (Some 4)
                         "144" 9).
  { vm_compute in E. injection E as <-. reflexivity. }
  assert (Hinit : __init__ sample_table = Ok sample_object)
    by (vm_compute; reflexivity).
  destruct (best_customers_get_top_labels sample_table sample_object row Hinit Hin)
    as (HF & HM & HR).
  exists row. split; [exact Hin|]. split; [rewrite Hrow; reflexivity|].
  assert (Hall : forall other, In other (rfm sample_object) ->
            Frequency (metrics other) <= 5 /\ Monetary (metrics other) <= 50 /\
            Recency (metrics other) <= 4).
  { intros other Ho. vm_compute in Ho.
    repeat (destruct Ho as [<-|Ho]; [vm_compute; intuition discriminate|]).
    contradiction. }
  split; [|split].
  - apply HF. intros other Ho. rewrite Hrow. simpl. apply (Hall other Ho).
  - apply HM. intros other Ho. rewrite Hrow. simpl. apply (Hall other Ho).
  - apply HR. intros other Ho. rewrite Hrow. simpl. apply (Hall other Ho).
Defined.

(** X15.  An object is constructed only from a table with at least two
    customers: its frame has at least two rows, so the sample deviation of
    its scores, which divides by the number of rows less one, is defined. *)
Theorem object_has_two_customers (table : DataFrame) (self : RFM) :
  __init__ table = Ok self ->
  (2 <= length (rfm self))%nat /\
  length (rfm self) = length (group_keys table) /\
  exists t u, In t table /\ In u table /\ id t <> id u.
Proof.
  intro H. destruct (init_inv _ _ H) as (_ & _ & Hrfm).
  pose proof (scored_frame_size _ _ _ Hrfm) as Hsize.
  pose proof (calculate_rfm_metrics _ _ _ Hrfm) as Hmet.
  assert (Hlen : length (rfm self) = length (group_keys table)).
  { rewrite <- (length_map metrics), Hmet.
    rewrite <- (aggregate_index table (pd.max (map IslemTarih table))).
    symmetry. apply length_map. }
  split; [exact Hsize|]. split; [exact Hlen|].
  pose proof (group_keys_NoDup table) as Hnd.
  destruct (group_keys table) as [|a [|b keys]] eqn:E; simpl in Hlen; try lia.
  assert (Ha : In a (group_keys table)) by (rewrite E; simpl; auto).
  assert (Hb : In b (group_keys table)) by (rewrite E; simpl; auto).
  apply group_keys_in, in_map_iff in Ha. apply group_keys_in, in_map_iff in Hb.
  destruct Ha as (t & Et & Ht), Hb as (u & Eu & Hu).
  exists t, u. split; [exact Ht|]. split; [exact Hu|].
  rewrite Et, Eu. inversion Hnd as [|? ? Hnotin _]; subst.
  intro Hab. apply Hnotin. left. symmetry. exact Hab.
Qed.

Lemma object_has_two_customers_witness :
  (2 <= length (rfm sample_object))%nat /\
  length (rfm sample_object) = length (group_keys sample_table) /\
  exists t u, In t sample_table /\ In u sample_table /\ id t <> id u.
Proof.
  apply (object_has_two_customers sample_table sample_object).
  vm_compute. reflexivity.
Defined.

(** ** The cut points *)

Lemma edges_last (column : list Z) :
  column <> [] ->
  nth (length (edges column) - 1) (edges column) 0
  = to_quarters (nth (length column - 1) (ZSort.sort column) 0).
Proof.
  intro Hne. pose proof (edges_sorted column) as Hs.
  pose proof (edges_bounded column Hne) as Hb.
  pose proof (edges_top column Hne) as Htop.
  rewrite Forall_forall in Hb.
  destruct (In_nth _ _ 0 Htop) as (p & Hp & Hnth).
  destruct (Nat.eq_dec p (length (edges column) - 1)) as [<-|Hneq]; auto.
  pose proof (sorted_lt_nth _ Hs p (S p) ltac:(lia)) as Hlt.
  pose proof (Hb (nth (S p) (edges column) 0) ltac:(apply nth_In; lia)). lia.
Qed.

(** X16.  For a column that is not empty, with values in the range where
    the float64 boundaries of pandas are exact, the cut points
    [_dynamic_qcut] works with are strictly increasing, between one and five
    in number; the first is the smallest value of the column and the last is
    the largest, so that every value of the column lies between the two. *)
Theorem cut_points_span_the_column (column : list Z) :
  exact_column column ->
  StronglySorted Z.lt (edges column) /\
  (1 <= length (edges column) <= 5)%nat /\
  (exists lo hi,
     In lo column /\ In hi column /\
     (forall v, In v column -> lo <= v <= hi) /\
     nth 0 (edges column) 0 = to_quarters lo /\
     nth (length (edges column) - 1) (edges column) 0 = to_quarters hi).
Proof.
  intros [Hne _]. split; [apply edges_sorted|]. split; [apply edges_length|].
  destruct (column_extremes column Hne) as [Hmin Hmax].
  exists (nth 0 (ZSort.sort column) 0),
         (nth (length column - 1) (ZSort.sort column) 0).
  split; [exact Hmin|]. split; [exact Hmax|]. split; [|split].
  - intros v Hv.
    pose proof (sorted_range _ (sort_sorted column) (sort_nonempty column Hne) v
                  (proj2 (sort_in column v) Hv)) as Hr.
    rewrite sort_length in Hr. exact Hr.
  - apply edges_first, Hne.
  - apply edges_last, Hne.
Qed.

Lemma cut_points_span_the_column_witness :
  edges collapsed_column = [4; 8; 12; 36] /\
  StronglySorted Z.lt (edges collapsed_column) /\
  (1 <= length (edges collapsed_column) <= 5)%nat.
Proof.
  split; [reflexivity|].
  destruct (cut_points_span_the_column collapsed_column) as (Hs & Hl & _).
  - split; [discriminate|]. split; [vm_compute; discriminate|].
    repeat constructor; vm_compute; discriminate.
  - split; [exact Hs | exact Hl].
Defined.
